(** * Valohai-MONAI: orchestration logic of the liver-segmentation pipeline

    A shallow embedding of the three drivers of the repository
    ([preprocess.py], [train.py], [inference.py]) and of the library calls
    they are built from, followed by the properties of the orchestration
    contract: partitioning, validation cadence, best-checkpoint selection,
    command-line parsing and output naming. *)

From Stdlib Require Import QArith Qround.
From stdpp Require Import base decidable option list sorting gmap strings.
From Stdlib Require Import Lia ZArith Ascii.
From stdpp Require Import pretty.

Local Open Scope string_scope.
Local Open Scope list_scope.

(** ** Python built-ins and [os.path] used by the drivers *)

Module Py.

(** Exceptions the drivers can end with. *)
Inductive exn : Type :=
| ValueError (msg : string)
| IndexError
| ZeroDivisionError
| SystemExit (code : Z).

Inductive result (A : Type) : Type :=
| Ok (a : A)
| Raise (e : exn).
Arguments Ok {A} a.
Arguments Raise {A} e.

Definition bind {A B} (r : result A) (k : A -> result B) : result B :=
  match r with
  | Ok a => k a
  | Raise e => Raise e
  end.


(** [s.endswith(suffix)] *)
Definition endswith (s suffix : string) : bool :=
  (String.length suffix <=? String.length s)%nat &&
  String.eqb
    (String.substring (String.length s - String.length suffix)
               (String.length suffix) s)
    suffix.

(** [s.replace(old, new)]: every non-overlapping occurrence of [old],
    scanning from the left.  [skip] counts the characters of an occurrence
    already replaced that are still to be dropped. *)
Fixpoint replace_go (old new : string) (skip : nat) (s : string) : string :=
  match s with
  | EmptyString => EmptyString
  | String a s' =>
      match skip with
      | S k => replace_go old new k s'
      | O =>
          if String.prefix old s
          then new +:+ replace_go old new (String.length old - 1) s'
          else String a (replace_go old new 0 s')
      end
  end.

Fixpoint interleave (new s : string) : string :=
  match s with
  | EmptyString => new
  | String a s' => new +:+ String a (interleave new s')
  end.

Definition replace (s old new : string) : string :=
  match old with
  | EmptyString => interleave new s
  | _ => replace_go old new 0 s
  end.

(** [s.rfind(c)] for a single character, [None] for -1. *)
Fixpoint rfind_from (c : ascii) (s : string) (i : nat) (acc : option nat)
  : option nat :=
  match s with
  | EmptyString => acc
  | String a s' =>
      rfind_from c s' (S i) (if Ascii.eqb a c then Some i else acc)
  end.

Definition rfind (c : ascii) (s : string) : option nat :=
  rfind_from c s 0 None.

Definition slice_from (i : nat) (s : string) : string :=
  String.substring i (String.length s - i) s.

Fixpoint all_dots (s : string) : bool :=
  match s with
  | EmptyString => true
  | String a s' => Ascii.eqb a "."%char && all_dots s'
  end.

(** [os.path.basename] (posixpath): what follows the last slash. *)
Definition basename (p : string) : string :=
  match rfind "/"%char p with
  | None => p
  | Some i => slice_from (S i) p
  end.

(** [os.path.splitext] (posixpath [_splitext]): split at the last dot of
    the last component, unless that component only has leading dots before
    it. *)
Definition splitext (p : string) : string * string :=
  match rfind "."%char p with
  | None => (p, "")
  | Some dotIndex =>
      let filenameIndex :=
        match rfind "/"%char p with None => 0%nat | Some i => S i end in
      if (filenameIndex <=? dotIndex)%nat then
        if all_dots
             (String.substring filenameIndex (dotIndex - filenameIndex) p)
        then (p, "")
        else (String.substring 0 dotIndex p, slice_from dotIndex p)
      else (p, "")
  end.

(** [os.path.join(a, b)] for two components. *)
Definition path_join (a b : string) : string :=
  if String.prefix "/" b then b
  else if String.eqb a "" || endswith a "/" then a +:+ b
  else a +:+ "/" +:+ b.

(** [s.split(sep)] for a one-character separator: never empty. *)
Fixpoint split (sep : ascii) (s : string) : list string :=
  match s with
  | EmptyString => [EmptyString]
  | String a s' =>
      if Ascii.eqb a sep then EmptyString :: split sep s'
      else match split sep s' with
           | [] => [String a EmptyString]
           | w :: ws => String a w :: ws
           end
  end.

(** ASCII characters for which [str.isspace] holds. *)
Definition is_space (a : ascii) : bool :=
  let n := nat_of_ascii a in
  (n =? 32)%nat || ((9 <=? n)%nat && (n <=? 13)%nat)
  || ((28 <=? n)%nat && (n <=? 31)%nat).

Fixpoint lstrip (s : string) : string :=
  match s with
  | EmptyString => EmptyString
  | String a s' => if is_space a then lstrip s' else s
  end.

Definition strip (s : string) : string :=
  String.rev (lstrip (String.rev (lstrip s))).

Definition digit_of (a : ascii) : option Z :=
  let n := nat_of_ascii a in
  if ((48 <=? n)%nat && (n <=? 57)%nat) then Some (Z.of_nat n - 48)%Z
  else None.

(** Decimal digits, single underscores allowed between two digits. *)
Fixpoint digits_go (acc : Z) (prev_digit : bool) (s : string) : option Z :=
  match s with
  | EmptyString => if prev_digit then Some acc else None
  | String a s' =>
      match digit_of a with
      | Some d => digits_go (10 * acc + d)%Z true s'
      | None =>
          if Ascii.eqb a "_"%char && prev_digit
          then digits_go acc false s'
          else None
      end
  end.

(** [int(s)] on a string: surrounding whitespace, an optional sign, then
    decimal digits.  [None] stands for the [ValueError]. *)
Definition int (s : string) : option Z :=
  match strip s with
  | String "+" s' => digits_go 0 false s'
  | String "-" s' => Z.opp <$> digits_go 0 false s'
  | s' => digits_go 0 false s'
  end.

(** [list(map(f, l))] where [f] may raise. *)
Fixpoint map_opt {A B} (f : A -> option B) (l : list A) : option (list B) :=
  match l with
  | [] => Some []
  | x :: l' =>
      match f x with
      | None => None
      | Some y => cons y <$> map_opt f l'
      end
  end.

(** [zip(a, b)]: stops at the end of the shorter list. *)
Fixpoint zip {A B} (a : list A) (b : list B) : list (A * B) :=
  match a, b with
  | x :: a', y :: b' => (x, y) :: zip a' b'
  | _, _ => []
  end.

(** [sorted(names)] on strings: ascending by code point.  The order is
    total and antisymmetric, so the result does not depend on the sorting
    algorithm. *)
Definition sorted (names : list string) : list string :=
  merge_sort String.le names.

End Py.

(** ** [argparse]: optional flags taking one value *)

Module Argparse.
Import Py.

(** Values a namespace attribute holds in the drivers. *)
Inductive value : Type :=
| VNone
| VInt (z : Z)
| VFloat (q : Q)
| VStr (s : string)
| VInts (l : list Z).

(** One [add_argument] call.  [type] returns [None] where the Python
    callable raises [ValueError]. *)
Record action : Type := {
  option_string : string;
  dest : string;
  type : string -> option value;
  default : value
}.

Definition parser : Type := list action.

Fixpoint lstrip_dashes (s : string) : string :=
  match s with
  | String "-" s' => lstrip_dashes s'
  | _ => s
  end.

(** [add_argument(name, type=ty, default=d)]; an omitted [default] is
    Python's [None]. *)
Definition add_argument (p : parser) (name : string)
    (ty : string -> option value) (d : value) : parser :=
  p ++ [ {| option_string := name;
            dest := replace (lstrip_dashes name) "-" "_";
            type := ty;
            default := d |} ].

Definition find_action (p : parser) (s : string) : option action :=
  List.find (fun a => String.eqb (option_string a) s) p.

(** [s.split('=', 1)] when ['=' in s]. *)
Fixpoint split_eq (s : string) : option (string * string) :=
  match s with
  | EmptyString => None
  | String a s' =>
      if Ascii.eqb a "="%char then Some (EmptyString, s')
      else match split_eq s' with
           | Some (l, r) => Some (String a l, r)
           | None => None
           end
  end.

Fixpoint all_digits (s : string) : bool :=
  match s with
  | EmptyString => true
  | String a s' => bool_decide (is_Some (digit_of a)) && all_digits s'
  end.

(** The parser's negative-number pattern, [^-\d+$|^-\d*\.\d+$]. *)
Definition negative_number (s : string) : bool :=
  match s with
  | String "-" body =>
      match split "." body with
      | [ds] => negb (String.eqb ds "") && all_digits ds
      | [int_part; frac] =>
          all_digits int_part && negb (String.eqb frac "") && all_digits frac
      | _ => false
      end
  | _ => false
  end.

Fixpoint has_space (s : string) : bool :=
  match s with
  | EmptyString => false
  | String a s' => Ascii.eqb a " "%char || has_space s'
  end.

Inductive kind : Type :=
| Positional
| Optional (a : action) (explicit_arg : option string)
| Ambiguous
| Unrecognized.

(** [_parse_optional]: what an element of [argv] is, for a parser whose
    option strings all start with two dashes. *)
Definition parse_optional (p : parser) (arg : string) : kind :=
  match arg with
  | String "-" tail =>
      match find_action p arg with
      | Some a => Optional a None
      | None =>
          if String.eqb tail "" then Positional else
          let pe := match split_eq arg with
                    | Some (l, r) => (l, Some r)
                    | None => (arg, None)
                    end in
          match (match pe.2 with
                 | Some _ => find_action p pe.1
                 | None => None
                 end) with
          | Some a => Optional a pe.2
          | None =>
              let abbrev :=
                if String.prefix "--" arg
                then List.filter
                       (fun a => String.prefix pe.1 (option_string a)) p
                else [] in
              match abbrev with
              | [a] => Optional a pe.2
              | _ :: _ :: _ => Ambiguous
              | [] =>
                  if negative_number arg then Positional
                  else if has_space arg then Positional
                  else Unrecognized
              end
          end
      end
  | _ => Positional
  end.

Definition namespace : Type := gmap string value.

Definition exit_error {A} : result A := Raise (SystemExit 2).

Definition store (a : action) (raw : string) (ns : namespace)
  : result namespace :=
  match type a raw with
  | Some v => Ok (<[dest a := v]> ns)
  | None => exit_error
  end.

(** The consuming loop of [parse_known_args] followed by the check of
    [parse_args] that nothing is left over.  The parsers of this
    repository declare no positional argument, so a positional element
    that no flag takes as its value is left over; every error path of
    [argparse] ends in [parser.error], which exits with status 2.  The
    [--] separator is outside the modelled fragment and is reported as an
    error. *)
Fixpoint consume (p : parser) (ns : namespace) (argv : list string)
  : result namespace :=
  match argv with
  | [] => Ok ns
  | arg :: rest =>
      if String.eqb arg "--" then exit_error else
      match parse_optional p arg with
      | Positional | Ambiguous | Unrecognized => exit_error
      | Optional a (Some explicit_arg) =>
          bind (store a explicit_arg ns) (fun ns' => consume p ns' rest)
      | Optional a None =>
          match rest with
          | [] => exit_error
          | raw :: rest' =>
              if String.eqb raw "--" then exit_error else
              match parse_optional p raw with
              | Positional =>
                  bind (store a raw ns) (fun ns' => consume p ns' rest')
              | _ => exit_error
              end
          end
      end
  end.

(** What is left of the loop once a flag without [=] has been read: the
    inner match of [consume]. *)
Definition take_value (p : parser) (a : action) (ns : namespace)
    (rest : list string) : result namespace :=
  match rest with
  | [] => exit_error
  | raw :: rest' =>
      if String.eqb raw "--" then exit_error else
      match parse_optional p raw with
      | Positional => bind (store a raw ns) (fun ns' => consume p ns' rest')
      | _ => exit_error
      end
  end.

Definition defaults (p : parser) : namespace :=
  fold_left (fun ns a => <[dest a := default a]> ns) p ∅.

Definition parse_args (p : parser) (argv : list string) : result namespace :=
  consume p (defaults p) argv.

(** The [type=] callables of the drivers: [int], [str] and the lambda
    [list(map(int, s.split(',')))] of the [--channels] flag. *)
Definition type_int (s : string) : option value := VInt <$> int s.
Definition type_str (s : string) : option value := Some (VStr s).
Definition type_channels (s : string) : option value :=
  VInts <$> map_opt int (split "," s).

(** Attribute access, [args.name]. *)
Definition getattr (ns : namespace) (name : string) : value :=
  match ns !! name with
  | Some v => v
  | None => VNone
  end.

End Argparse.

(** ** [sklearn.model_selection.train_test_split] *)

Module Sklearn.
Import Py.

Section Split.
(** [np.random.RandomState(seed).permutation(n)], the only source of
    randomness of the split. *)
Context (permutation : Z -> nat -> list nat).

(** [_validate_shuffle_split] for a float [test_size] and no
    [train_size].  The fraction is the rational the float stands for; for
    the fractions 0.1 and 0.2 of the drivers the float product has the same
    ceiling. *)
Definition validate_shuffle_split (n_samples : nat) (test_size : Q)
  : result (nat * nat) :=
  if Qle_bool test_size 0 || Qle_bool 1 test_size
  then Raise (ValueError "test_size should be in the (0, 1) range")
  else
    let n_test :=
      Z.to_nat (Qceiling (test_size * inject_Z (Z.of_nat n_samples))) in
    let n_train := (n_samples - n_test)%nat in
    if (n_train =? 0)%nat
    then Raise (ValueError "the resulting train set will be empty")
    else Ok (n_train, n_test).

(** [_safe_indexing] of a list: [[X[idx] for idx in indices]]. *)
Definition safe_indexing {A} (X : list A) (indices : list nat)
  : result (list A) :=
  match mapM (fun idx => X !! idx) indices with
  | Some l => Ok l
  | None => Raise IndexError
  end.

Fixpoint index_all {A} (arrays : list (list A)) (train test : list nat)
  : result (list (list A)) :=
  match arrays with
  | [] => Ok []
  | a :: arrays' =>
      bind (safe_indexing a train) (fun a_train =>
      bind (safe_indexing a test) (fun a_test =>
      bind (index_all arrays' train test) (fun tl =>
      Ok (a_train :: a_test :: tl))))
  end.

(** [train_test_split] on one or more arrays, with [test_size] and
    [random_state] given, the
    default [shuffle=True] and no stratification: the first [n_test]
    entries of the permutation index the held-out part, the following
    [n_train] the training part. *)
Definition train_test_split {A} (arrays : list (list A)) (test_size : Q)
    (random_state : Z) : result (list (list A)) :=
  match arrays with
  | [] => Raise (ValueError "At least one array required as input")
  | first :: others =>
      if forallb (fun a => (length a =? length first)%nat) others then
        bind (validate_shuffle_split (length first) test_size)
          (fun '(n_train, n_test) =>
             let perm := permutation random_state (length first) in
             let ind_test := take n_test perm in
             let ind_train := take n_train (drop n_test perm) in
             index_all arrays ind_train ind_test)
      else
        Raise (ValueError
                 "Found input variables with inconsistent numbers of samples")
  end.
End Split.

End Sklearn.

(** A sample: the [{"image": .., "label": ..}] dictionaries. *)
Record sample : Type := { image : string; label : string }.

(** ** [preprocess.py] *)

Module Preprocess.
Import Py.

Fixpoint contains (pat s : string) : bool :=
  String.prefix pat s ||
  match s with
  | EmptyString => false
  | String _ s' => contains pat s'
  end.

Section Partition.
Context (permutation : Z -> nat -> list nat).
(** [os.listdir]: the names in a directory, in the order the file system
    enumerates them. *)
Context (listdir : string -> list string).

(** [glob] of the pattern "wildcard [.nii] wildcard" in directory [d]:
    the entries whose name matches,
    hidden files excluded. *)
Definition glob_nii (d : string) : list string :=
  path_join d <$>
    List.filter
      (fun name => negb (String.prefix "." name) && contains ".nii" name)
      (listdir d).

Record partition : Type := {
  train_data_dicts : list sample;
  test_data_dicts : list sample
}.

(** [preprocess_train_val], lines 80-98: the lists handed to
    [process_dataset]. *)
Definition preprocess_train_val (data_dir labels_tr : string)
  : result partition :=
  let volumes := sorted (glob_nii data_dir) in
  let masks := sorted (glob_nii labels_tr) in
  if bool_decide (volumes = []) || bool_decide (masks = []) then
    Raise (ValueError "No valid training image or label files found.")
  else
    bind (Sklearn.train_test_split permutation [volumes; masks] (1 # 10) 42)
      (fun parts =>
         match parts with
         | [train_images; test_images; train_labels; test_labels] =>
             Ok {| train_data_dicts :=
                     (fun '(img, lbl) => {| image := img; label := lbl |})
                       <$> zip train_images train_labels;
                   test_data_dicts :=
                     (fun '(img, lbl) => {| image := img; label := lbl |})
                       <$> zip test_images test_labels |}
         | _ => Raise (ValueError "wrong number of values to unpack")
         end).
End Partition.

End Preprocess.

(** ** [inference.py] *)

Module Inference.
Import Py.

(** The name under which [run_inference] looks for the saved prediction
    (lines 101-108). *)
Definition pred_name (input_image_path : string) : string :=
  let base_name := basename input_image_path in
  if endswith base_name ".nii.gz"
  then replace base_name ".nii.gz" "_pred.nii.gz"
  else (splitext base_name).1 +:+ "_pred.nii.gz".

Definition pred_path (output_path input_image_path : string) : string :=
  path_join output_path (pred_name input_image_path).

(** [parse_args] of the inference driver (lines 20-26). *)
Definition parser : Argparse.parser :=
  let p := [] in
  let p := Argparse.add_argument p "--in_channels" Argparse.type_int
             (Argparse.VInt 1) in
  let p := Argparse.add_argument p "--out_channels" Argparse.type_int
             (Argparse.VInt 3) in
  let p := Argparse.add_argument p "--num_res_units" Argparse.type_int
             (Argparse.VInt 2) in
  Argparse.add_argument p "--channels" Argparse.type_channels Argparse.VNone.

Definition parse_args (argv : list string) : result Argparse.namespace :=
  Argparse.parse_args parser argv.

End Inference.

(** ** [train.py] *)

Module Train.
Import Py.

(** The capabilities the driver takes from the tensor runtime, the imaging
    framework and the helper modules under [utils/].  Tensors and network
    parameters are opaque; only the way the driver wires the calls
    together is modelled. *)
Class Framework : Type := {
  Model : Type;      (** the learnable parameters, [model.state_dict()] *)
  Optimizer : Type;  (** the state of [torch.optim.Adam] *)
  Batch : Type;      (** a collated batch with its image and label *)
  Output : Type;     (** what the network returns on a batch *)
  Loss : Type;       (** the loss tensor *)
  Grad : Type;       (** the gradients [loss.backward()] leaves behind *)
  Scored : Type;     (** a post-processed prediction with its label *)
  (** [get_model_network(in_channels, out_channels, num_res_units,
      channels)] of [utils/model.py] *)
  get_model_network :
    Argparse.value -> Argparse.value -> Argparse.value -> Argparse.value ->
    Model;
  (** [torch.optim.Adam(model.parameters(), learning_rate)] *)
  adam : Model -> Q -> Optimizer;
  (** [model(inputs)], in training or in evaluation mode *)
  forward : bool -> Model -> Batch -> Output;
  (** [DiceLoss(to_onehot_y=True, softmax=True)] *)
  loss_function : Output -> Batch -> Loss;
  (** [loss.backward()] *)
  backward : Model -> Batch -> Loss -> Grad;
  (** [optimizer.step()] *)
  optimizer_step : Optimizer -> Model -> Grad -> Model * Optimizer;
  (** [sliding_window_inference(inputs, roi_size, sw_batch_size,
      predictor)] *)
  sliding_window_inference :
    Batch -> Z * Z * Z -> Z -> (Batch -> Output) -> Output;
  (** decollation followed by the post transforms of
      [utils/transforms.py] *)
  post_transforms : Output -> Batch -> list Scored;
  (** [DiceMetric(include_background=False, reduction="mean")] and
      [MeanIoU(..)], aggregated over what was fed since the last reset.
      Scores are finite floats, represented by the rational they
      denote; what the framework does when nothing was fed is its own
      matter. *)
  dice_aggregate : list Scored -> Q;
  mean_iou_aggregate : list Scored -> Q;
  (** iterating [DataLoader(Dataset(data, transform), batch_size,
      shuffle)] for the [n]-th time; the flag tells the training
      transforms from the validation ones *)
  data_loader : list sample -> bool -> Z -> nat -> list Batch
}.

(** What a file written by the run holds. *)
Inductive blob `{Framework} : Type :=
| Weights (m : Model)
| Json (fields : list (string * string)).

(** What the run prints or does towards the outside, in order. *)
Inductive event : Type :=
| OptimizerStep (epoch step : nat)
| PrintStep (step len : nat) (train_loss running_mean : Q)
| PrintEpoch (epoch : Z) (loss train_dice : Q)
| Inference (epoch : nat) (training grad_enabled : bool)
| Plot (output_dir : string)
| PrintVal (epoch : Z) (val_dice val_mean_iou best_dice_score : Q)
           (best_dice_epoch : Z)
| PrintDone (best_dice_score : Q) (best_dice_epoch : Z).

(** The variables of [train_model] together with the part of the outside
    world it touches. *)
Record state `{Framework} : Type := {
  model : Model;
  optimizer : Optimizer;
  training : bool;            (** [model.train()] / [model.eval()] *)
  grad_enabled : bool;        (** off inside [torch.no_grad()] *)
  best_dice_score : Q;
  best_dice_epoch : Z;
  epoch_loss_values : list Q;
  dice_values : list Q;
  dirs : gset string;         (** directories made by [os.makedirs] *)
  files : gmap string blob;   (** files written, by path *)
  trace : list event
}.

(** [a > b] on scores. *)
Definition Qgtb (a b : Q) : bool := negb (Qle_bool a b).

Section Driver.
Context `{F : Framework}.
(** [loss.item()]: the number read off a loss tensor. *)
Context (item : Loss -> Q).
(** The directory the platform collects outputs from. *)
Context (outputs_dir : string).

(** [valohai.outputs(name)], as a directory. *)
Definition valohai_outputs (name : string) : string :=
  if String.eqb name "*" then outputs_dir else path_join outputs_dir name.

(** [valohai.outputs(name).path(filename)] *)
Definition valohai_outputs_path (name filename : string) : string :=
  path_join (valohai_outputs name) filename.

Definition emit (st : state) (evs : list event) : state :=
  {| model := model st; optimizer := optimizer st;
     training := training st; grad_enabled := grad_enabled st;
     best_dice_score := best_dice_score st;
     best_dice_epoch := best_dice_epoch st;
     epoch_loss_values := epoch_loss_values st;
     dice_values := dice_values st;
     dirs := dirs st; files := files st;
     trace := trace st ++ evs |}.

Definition set_mode (st : state) (train grad : bool) : state :=
  {| model := model st; optimizer := optimizer st;
     training := train; grad_enabled := grad;
     best_dice_score := best_dice_score st;
     best_dice_epoch := best_dice_epoch st;
     epoch_loss_values := epoch_loss_values st;
     dice_values := dice_values st;
     dirs := dirs st; files := files st;
     trace := trace st |}.

Definition set_network (st : state) (m : Model) (o : Optimizer) : state :=
  {| model := m; optimizer := o;
     training := training st; grad_enabled := grad_enabled st;
     best_dice_score := best_dice_score st;
     best_dice_epoch := best_dice_epoch st;
     epoch_loss_values := epoch_loss_values st;
     dice_values := dice_values st;
     dirs := dirs st; files := files st;
     trace := trace st |}.

Definition append_epoch_loss (st : state) (epoch_loss : Q) : state :=
  {| model := model st; optimizer := optimizer st;
     training := training st; grad_enabled := grad_enabled st;
     best_dice_score := best_dice_score st;
     best_dice_epoch := best_dice_epoch st;
     epoch_loss_values := epoch_loss_values st ++ [epoch_loss];
     dice_values := dice_values st;
     dirs := dirs st; files := files st;
     trace := trace st |}.

Definition append_dice (st : state) (dice_score : Q) : state :=
  {| model := model st; optimizer := optimizer st;
     training := training st; grad_enabled := grad_enabled st;
     best_dice_score := best_dice_score st;
     best_dice_epoch := best_dice_epoch st;
     epoch_loss_values := epoch_loss_values st;
     dice_values := dice_values st ++ [dice_score];
     dirs := dirs st; files := files st;
     trace := trace st |}.

(** Lines 178-190: the new best, and the snapshot with its metadata
    sidecar written over whatever the two paths held. *)
Definition save_best (st : state) (dice_score : Q) (epoch : nat) : state :=
  let model_output_path := valohai_outputs_path "*" "model.pth" in
  {| model := model st; optimizer := optimizer st;
     training := training st; grad_enabled := grad_enabled st;
     best_dice_score := dice_score;
     best_dice_epoch := Z.of_nat epoch + 1;
     epoch_loss_values := epoch_loss_values st;
     dice_values := dice_values st;
     dirs := dirs st;
     files :=
       <[model_output_path +:+ ".metadata.json" :=
           Json [("valohai.alias", "latest-model")]]>
         (<[model_output_path := Weights (model st)]> (files st));
     trace := trace st |}.

(** The body of the batch loop, lines 100-116.  The accumulator carries
    the local variables [epoch_loss] and [step]. *)
Definition train_batch (epoch len : nat) (acc : state * Q * nat)
    (batch_data : Batch) : state * Q * nat :=
  let '(st, epoch_loss, step) := acc in
  let step := S step in
  let outputs := forward (training st) (model st) batch_data in
  let loss := loss_function outputs batch_data in
  let grads := backward (model st) batch_data loss in
  let '(m, o) := optimizer_step (optimizer st) (model st) grads in
  let epoch_loss := (epoch_loss + item loss)%Q in
  (emit (set_network st m o)
        [OptimizerStep epoch step;
         PrintStep step len (item loss)
                   (epoch_loss / inject_Z (Z.of_nat step))%Q],
   epoch_loss, step).

(** The body of the validation loop, lines 133-168; [buffer] is what the
    two metrics have been fed since their last reset. *)
Definition val_batch (epoch : nat) (acc : state * list Scored)
    (val_data : Batch) : state * list Scored :=
  let '(st, buffer) := acc in
  let roi_size := (160, 160, 160)%Z in
  let sw_batch_size := 4%Z in
  let val_outputs :=
    sliding_window_inference val_data roi_size sw_batch_size
      (forward (training st) (model st)) in
  let val_batch_data := post_transforms val_outputs val_data in
  (emit st [Inference epoch (training st) (grad_enabled st);
            Plot (valohai_outputs "my-output")],
   buffer ++ val_batch_data).

(** Lines 130-199, entered when [(epoch + 1) % 5 == 0]. *)
Definition validation (val_loader : nat -> list Batch) (st : state)
    (epoch : nat) : state :=
  let st := set_mode st false (grad_enabled st) in
  let grad_before := grad_enabled st in
  let st := set_mode st (training st) false in
  let '(st, buffer) :=
    fold_left (val_batch epoch) (val_loader epoch) (st, []) in
  let dice_score := dice_aggregate buffer in
  let mean_iou_score := mean_iou_aggregate buffer in
  let st := append_dice st dice_score in
  let st :=
    if Qgtb dice_score (best_dice_score st)
    then save_best st dice_score epoch
    else st in
  let st :=
    emit st [PrintVal (Z.of_nat epoch + 1) dice_score mean_iou_score
                      (best_dice_score st) (best_dice_epoch st)] in
  set_mode st (training st) grad_before.

(** One turn of the epoch loop, lines 95-199. *)
Definition train_epoch (train_loader val_loader : nat -> list Batch)
    (st : state) (epoch : nat) : result state :=
  let st := set_mode st true (grad_enabled st) in
  let batches := train_loader epoch in
  let '(st, epoch_loss, step) :=
    fold_left (train_batch epoch (length batches)) batches
              (st, 0%Q, 0%nat) in
  if (step =? 0)%nat then Raise ZeroDivisionError else
  let epoch_loss := (epoch_loss / inject_Z (Z.of_nat step))%Q in
  let st := append_epoch_loss st epoch_loss in
  let st :=
    emit st [PrintEpoch (Z.of_nat epoch + 1) epoch_loss
                        (1 - epoch_loss)%Q] in
  if ((Z.of_nat epoch + 1) mod 5 =? 0)%Z
  then Ok (validation val_loader st epoch)
  else Ok st.

(** [for epoch in range(..)] over the given epochs, stopping at the
    first exception. *)
Fixpoint epochs_loop (train_loader val_loader : nat -> list Batch)
    (st : state) (epochs : list nat) : result state :=
  match epochs with
  | [] => Ok st
  | epoch :: epochs' =>
      bind (train_epoch train_loader val_loader st epoch)
           (fun st' => epochs_loop train_loader val_loader st' epochs')
  end.

(** Lines 74-92: the state the epoch loop starts from.  The output
    directory of an execution starts empty. *)
Definition init (m : Model) (learning_rate : Q) (ckpt_path : string)
  : state :=
  {| model := m; optimizer := adam m learning_rate;
     training := true; grad_enabled := true;
     best_dice_score := (-1)%Q;
     best_dice_epoch := (-1)%Z;
     epoch_loss_values := [];
     dice_values := [];
     dirs := {[ckpt_path]};
     files := ∅;
     trace := [] |}.

(** [train_model]; the returned state stands for the returned model
    together with everything the call left behind. *)
Definition train_model (train_loader val_loader : nat -> list Batch)
    (m : Model) (num_epochs : Z) (learning_rate : Q) (ckpt_path : string)
  : result state :=
  bind (epochs_loop train_loader val_loader
          (init m learning_rate ckpt_path) (seq 0 (Z.to_nat num_epochs)))
       (fun st =>
          Ok (emit st [PrintDone (best_dice_score st)
                                 (best_dice_epoch st)])).

(** *** Data loaders *)

Context (permutation : Z -> nat -> list nat).
Context (listdir : string -> list string).

Definition data_dicts (data_dir labels_dir : string) : list sample :=
  let images := sorted (listdir data_dir) in
  let labels := sorted (listdir labels_dir) in
  (fun '(img, lbl) => {| image := path_join data_dir img;
                         label := path_join labels_dir lbl |})
    <$> zip images labels.

Record loaders : Type := {
  train_data : list sample;
  val_data : list sample;
  train_loader : nat -> list Batch;
  val_loader : nat -> list Batch
}.

(** [get_data_loaders], lines 229-285. *)
Definition get_data_loaders (data_dir labels_dir : string)
    (batch_size : Z) (val_split : Q) : result loaders :=
  bind (Sklearn.train_test_split permutation
          [data_dicts data_dir labels_dir] val_split 42)
    (fun parts =>
       match parts with
       | [train_data; val_data] =>
           Ok {| train_data := train_data;
                 val_data := val_data;
                 train_loader := data_loader train_data true batch_size;
                 val_loader := data_loader val_data false batch_size |}
       | _ => Raise (ValueError "wrong number of values to unpack")
       end).

(** *** Command line *)

(** [float(s)]: outside the orchestration logic. *)
Context (float : string -> option Q).

Definition type_float (s : string) : option Argparse.value :=
  Argparse.VFloat <$> float s.

(** The parser built by [parse_args], lines 33-44. *)
Definition parser : Argparse.parser :=
  let p := [] in
  let p := Argparse.add_argument p "--batch_size" Argparse.type_int
             (Argparse.VInt 2) in
  let p := Argparse.add_argument p "--epochs" Argparse.type_int
             (Argparse.VInt 10) in
  let p := Argparse.add_argument p "--lr" type_float
             (Argparse.VFloat (1 # 10000)) in
  let p := Argparse.add_argument p "--ckpt" Argparse.type_str
             (Argparse.VStr "checkpoints") in
  let p := Argparse.add_argument p "--in_channels" Argparse.type_int
             (Argparse.VInt 1) in
  let p := Argparse.add_argument p "--out_channels" Argparse.type_int
             (Argparse.VInt 3) in
  let p := Argparse.add_argument p "--num_res_units" Argparse.type_int
             (Argparse.VInt 2) in
  Argparse.add_argument p "--channels" Argparse.type_channels
    Argparse.VNone.

Definition parse_args (argv : list string) : result Argparse.namespace :=
  Argparse.parse_args parser argv.

Definition as_int (v : Argparse.value) : Z :=
  match v with Argparse.VInt z => z | _ => 0%Z end.
Definition as_float (v : Argparse.value) : Q :=
  match v with Argparse.VFloat q => q | _ => 0%Q end.
Definition as_str (v : Argparse.value) : string :=
  match v with Argparse.VStr s => s | _ => "" end.

(** The script body, lines 289-332, from the extracted archive on;
    [extract_dir] is where the archive was unpacked and [val_split] is
    left at the default of [get_data_loaders]. *)
Definition main (argv : list string) (extract_dir : string)
  : result state :=
  bind (parse_args argv) (fun args =>
  let data_dir := path_join extract_dir "imagesTr" in
  let labels_dir := path_join extract_dir "labelsTr" in
  bind (get_data_loaders data_dir labels_dir
          (as_int (Argparse.getattr args "batch_size")) (1 # 5))
    (fun l =>
       let m := get_model_network
                  (Argparse.getattr args "in_channels")
                  (Argparse.getattr args "out_channels")
                  (Argparse.getattr args "num_res_units")
                  (Argparse.getattr args "channels") in
       train_model (train_loader l) (val_loader l) m
         (as_int (Argparse.getattr args "epochs"))
         (as_float (Argparse.getattr args "lr"))
         (as_str (Argparse.getattr args "ckpt")))).
End Driver.

End Train.

(** ** What a run computes, read off the loop bodies *)

Module Run.
Import Py Train.

(** The events of a trace that are optimizer steps or inferences. *)
Definition is_optimizer_step (e : event) : bool :=
  match e with OptimizerStep _ _ => true | _ => false end.

Definition is_inference (e : event) : bool :=
  match e with Inference _ _ _ => true | _ => false end.

Definition is_print_val (e : event) : bool :=
  match e with PrintVal _ _ _ _ _ => true | _ => false end.

Definition training_event (e : event) : Prop :=
  match e with OptimizerStep _ _ | PrintStep _ _ _ _ => True | _ => False end.

Section Run.
Context `{F : Framework}.
Context (train_loader val_loader : nat -> list Batch).

(** The effect of one training batch on the parameters and on the
    optimizer. *)
Definition step_net (mo : Model * Optimizer) (b : Batch)
  : Model * Optimizer :=
  optimizer_step mo.2 mo.1
    (backward mo.1 b (loss_function (forward true mo.1 b) b)).

Definition epoch_net (mo : Model * Optimizer) (epoch : nat)
  : Model * Optimizer :=
  fold_left step_net (train_loader epoch) mo.

(** Parameters and optimizer once [n] epochs have been trained. *)
Definition net_after (m0 : Model) (lr : Q) (n : nat) : Model * Optimizer :=
  fold_left epoch_net (seq 0 n) (m0, adam m0 lr).

(** What one validation batch feeds the metrics, the network being
    applied in evaluation mode. *)
Definition scored_batch (m : Model) (b : Batch) : list Scored :=
  post_transforms
    (sliding_window_inference b (160, 160, 160)%Z 4%Z (forward false m)) b.

Definition scored (m : Model) (epoch : nat) : list Scored :=
  concat (scored_batch m <$> val_loader epoch).

(** The validation Dice of the pass that ends epoch [epoch]
    (0-indexed). *)
Definition dice_at (m0 : Model) (lr : Q) (epoch : nat) : Q :=
  dice_aggregate (scored (net_after m0 lr (S epoch)).1 epoch).

(** The validation Dice of the [k]-th pass, [k] counted from 0: the one
    that ends the 1-indexed epoch [5 * (k + 1)]. *)
Definition pass_dice (m0 : Model) (lr : Q) (k : nat) : Q :=
  dice_at m0 lr (5 * k + 4).

Context (outputs_dir : string).

(** The two files of a checkpoint: the snapshot and its metadata sidecar. *)
Definition checkpoint_files (m : Model) : gmap string blob :=
  <[valohai_outputs_path outputs_dir "*" "model.pth" +:+ ".metadata.json" :=
      Json [("valohai.alias", "latest-model")]]>
    {[valohai_outputs_path outputs_dir "*" "model.pth" := Weights m]}.

(** What the selector holds once [passes] validation passes are over: either
    nothing was ever selected, or the selection is the earliest pass of
    highest Dice, with the snapshot taken at the end of its epoch. *)
Definition selected (m0 : Model) (lr : Q) (passes : nat) (st : state)
  : Prop :=
  (best_dice_score st = (-1)%Q /\ best_dice_epoch st = (-1)%Z
   /\ files st = ∅
   /\ forall j, (j < passes)%nat -> (pass_dice m0 lr j <= -1)%Q)
  \/ exists k, (k < passes)%nat
       /\ best_dice_score st = pass_dice m0 lr k
       /\ best_dice_epoch st = (5 * (Z.of_nat k + 1))%Z
       /\ files st = checkpoint_files (net_after m0 lr (5 * (k + 1))).1
       /\ (-1 < pass_dice m0 lr k)%Q
       /\ (forall j, (j < passes)%nat ->
                     (pass_dice m0 lr j <= pass_dice m0 lr k)%Q)
       /\ (forall j, (j < k)%nat ->
                     (pass_dice m0 lr j < pass_dice m0 lr k)%Q).

(** The state once [n] epochs are over. *)
Definition run_inv (m0 : Model) (lr : Q) (ckpt_path : string) (n : nat)
    (st : state) : Prop :=
  (model st, optimizer st) = net_after m0 lr n
  /\ grad_enabled st = true
  /\ dirs st = {[ckpt_path]}
  /\ dice_values st = pass_dice m0 lr <$> seq 0 (n / 5)
  /\ selected m0 lr (n / 5) st
  /\ length (List.filter is_print_val (trace st)) = (n / 5)%nat
  /\ Forall (fun e => match e with
                      | Inference _ training grad =>
                          training = false /\ grad = false
                      | _ => True
                      end) (trace st).
End Run.

(** An event with the numbers derived from the loss blanked out. *)
Definition erase_loss (e : event) : event :=
  match e with
  | PrintStep step len _ _ => PrintStep step len 0 0
  | PrintEpoch epoch _ _ => PrintEpoch epoch 0 0
  | _ => e
  end.

(** Everything a run leaves behind except the reported losses: the
    training dynamics and the checkpoint decisions. *)
Record dynamics `{F : Framework} : Type := {
  d_model : Model;
  d_optimizer : Optimizer;
  d_best_dice_score : Q;
  d_best_dice_epoch : Z;
  d_dice_values : list Q;
  d_dirs : gset string;
  d_files : gmap string blob;
  d_trace : list event
}.

Definition dynamics_of `{F : Framework} (st : state) : dynamics :=
  {| d_model := model st;
     d_optimizer := optimizer st;
     d_best_dice_score := best_dice_score st;
     d_best_dice_epoch := best_dice_epoch st;
     d_dice_values := dice_values st;
     d_dirs := dirs st;
     d_files := files st;
     d_trace := erase_loss <$> trace st |}.

(** The number of validation passes a run has made: each pass ends with one
    printed record. *)
Definition passes `{F : Framework} (r : result state) : nat :=
  match r with
  | Ok st => length (List.filter is_print_val (trace st))
  | Raise _ => 0%nat
  end.

(** Two states that differ at most in the losses they report and in the
    directories made. *)
Definition sim `{F : Framework} (st1 st2 : state) : Prop :=
  model st1 = model st2 /\ optimizer st1 = optimizer st2
  /\ training st1 = training st2 /\ grad_enabled st1 = grad_enabled st2
  /\ best_dice_score st1 = best_dice_score st2
  /\ best_dice_epoch st1 = best_dice_epoch st2
  /\ dice_values st1 = dice_values st2
  /\ files st1 = files st2
  /\ erase_loss <$> trace st1 = erase_loss <$> trace st2.

Definition rsim `{F : Framework} (r1 r2 : result state) : Prop :=
  match r1, r2 with
  | Ok st1, Ok st2 => sim st1 st2
  | Raise e1, Raise e2 => e1 = e2
  | _, _ => False
  end.

Definition result_map {A B} (f : A -> B) (r : result A) : result B :=
  match r with
  | Ok a => Ok (f a)
  | Raise e => Raise e
  end.

End Run.

(** ** A concrete runtime, for running the drivers on examples *)

Module Toy.

(** The network is the number of optimizer steps it has received; with
    one batch per epoch it scores, at the [k]-th validation pass, the
    [k]-th entry of [scores]. *)
Definition framework (scores : list Q) : Train.Framework :=
  {| Train.Model := nat;
     Train.Optimizer := nat;
     Train.Batch := nat;
     Train.Output := nat;
     Train.Loss := nat;
     Train.Grad := nat;
     Train.Scored := Q;
     Train.get_model_network := fun _ _ _ _ => 0%nat;
     Train.adam := fun _ _ => 0%nat;
     Train.forward := fun _ m _ => m;
     Train.loss_function := fun out _ => out;
     Train.backward := fun _ _ _ => 1%nat;
     Train.optimizer_step := fun o m g => ((m + g)%nat, S o);
     Train.sliding_window_inference := fun b _ _ predictor => predictor b;
     Train.post_transforms :=
       fun out _ => [nth (out / 5 - 1) scores 0%Q];
     Train.dice_aggregate := fun buf => hd 0%Q buf;
     Train.mean_iou_aggregate := fun buf => hd 0%Q buf;
     Train.data_loader := fun data _ _ _ => (fun _ => 0%nat) <$> data |}.

(** One batch per iteration over a loader. *)
Definition one_batch : nat -> list nat := fun _ => [0%nat].

Definition item (l : nat) : Q := inject_Z (Z.of_nat l).

Definition outputs_dir : string := "/valohai/outputs".

Definition permutation (seed : Z) (n : nat) : list nat := rev (seq 0 n).

Definition float (s : string) : option Q := None.

(** A run of [num_epochs] epochs whose validation passes score [scores]. *)
Definition run (scores : list Q) (num_epochs : Z) (ckpt_path : string)
  : Py.result (Train.state (H := framework scores)) :=
  Train.train_model (F := framework scores) item outputs_dir
    one_batch one_batch 0%nat num_epochs (1 # 10000) ckpt_path.

(** The same run, stopped after [n] epochs. *)
Definition epochs (scores : list Q) (n : nat) (ckpt_path : string)
  : Py.result (Train.state (H := framework scores)) :=
  Train.epochs_loop (F := framework scores) item outputs_dir
    one_batch one_batch
    (Train.init (F := framework scores) 0%nat (1 # 10000) ckpt_path)
    (seq 0 n).

(** The snapshot of the network that has received [m] steps. *)
Definition snapshot (scores : list Q) (m : nat)
  : Train.blob (H := framework scores) :=
  @Train.Weights (framework scores) m.

(** A directory tree with three images and two labels. *)
Definition listdir (d : string) : list string :=
  if String.eqb d "data/imagesTr"
  then ["liver_2.nii.gz"; "liver_0.nii.gz"; "liver_1.nii.gz"]
  else if String.eqb d "data/labelsTr"
  then ["liver_1.nii.gz"; "liver_0.nii.gz"]
  else if String.eqb d "one/imagesTr" then ["liver_0.nii.gz"]
  else if String.eqb d "one/labelsTr"
  then ["liver_0.nii.gz"; "liver_1.nii.gz"]
  else if String.eqb d "solo/imagesTr" then ["liver_0.nii.gz"]
  else if String.eqb d "solo/labelsTr" then ["liver_0.nii.gz"]
  else [].

End Toy.

(** ** What a run reports *)

Module Report.
Import Py Train Run.

Section Report.
Context `{F : Framework}.
Context (item : Loss -> Q).
Context (train_loader : nat -> list Batch).

(** The numbers read off the loss tensors of the batches of one epoch, the
    network moving from batch to batch. *)
Fixpoint batch_losses (mo : Model * Optimizer) (l : list Batch) : list Q :=
  match l with
  | [] => []
  | b :: l' =>
      item (loss_function (forward true mo.1 b) b)
      :: batch_losses (step_net mo b) l'
  end.

(** Their sum, accumulated from 0 in batch order, over their number. *)
Definition mean_loss (losses : list Q) : Q :=
  (fold_left Qplus losses 0 / inject_Z (Z.of_nat (length losses)))%Q.

Definition epoch_mean_loss (m0 : Model) (lr : Q) (epoch : nat) : Q :=
  mean_loss (batch_losses (net_after train_loader m0 lr epoch)
               (train_loader epoch)).

(** The number of training batches of the first [n] epochs. *)
Definition batches_run (n : nat) : nat :=
  sum_list ((fun epoch => length (train_loader epoch)) <$> seq 0 n).

(** The optimizer steps of the first [n] epochs, in order: one per training
    batch, numbered from 1 within its epoch. *)
Definition optimizer_steps (n : nat) : list event :=
  flat_map (fun epoch =>
              OptimizerStep epoch <$> seq 1 (length (train_loader epoch)))
           (seq 0 n).

(** The records printed at the end of the first [n] epochs (lines 120-125):
    the 1-indexed epoch, its mean loss and [1 - loss] as [train_dice]. *)
Definition epoch_records (m0 : Model) (lr : Q) (n : nat) : list event :=
  (fun epoch =>
     PrintEpoch (Z.of_nat epoch + 1) (epoch_mean_loss m0 lr epoch)
                (1 - epoch_mean_loss m0 lr epoch)%Q) <$> seq 0 n.
End Report.

Definition is_print_epoch (e : event) : bool :=
  match e with PrintEpoch _ _ _ => true | _ => false end.

End Report.

(** ** [preprocess.py], the processing and the script body *)

Module PreprocessRun.
Import Py.

(** What a file written by the preprocessing holds. *)
Inductive content : Type :=
| ImageOf (d : sample)      (** the transformed image of a sample *)
| LabelOf (d : sample)      (** its transformed label, as [int16] *)
| PlotOf (d : sample)       (** the picture of the two *)
| Archive (root_dir : string)
| Metadata (records : list (string * list string)).

(** What the preprocessing does to the file system, in order. *)
Inductive action : Type :=
| Makedirs (path : string)
| Save (path : string) (c : content).

(** [f"sample_{i}.png"] *)
Definition sample_png (i : nat) : string :=
  "sample_" +:+ pretty i +:+ ".png".

(** The name [process_dataset] gives to both files of a sample. *)
Definition out_name (d : sample) : string :=
  (splitext (basename (image d))).1 +:+ ".gz".

Section Outputs.
Context (outputs_dir : string).

(** The loop of [process_dataset], lines 48-65, from index [i] on. *)
Fixpoint process_samples (images_dir labels_dir : string) (i : nat)
    (data_dicts : list sample) : list action :=
  match data_dicts with
  | [] => []
  | d :: rest =>
      let base_name := (splitext (basename (image d))).1 in
      let output_path :=
        Train.valohai_outputs_path outputs_dir "my-output" (sample_png i) in
      [Save (path_join images_dir (base_name +:+ ".gz")) (ImageOf d);
       Save (path_join labels_dir (base_name +:+ ".gz")) (LabelOf d)]
      ++ (if (i <? 5)%nat then [Save output_path (PlotOf d)] else [])
      ++ process_samples images_dir labels_dir (S i) rest
  end.

(** [process_dataset], lines 40-67. *)
Definition process_dataset (data_dicts : list sample)
    (output_subdir output_dir : string) : list action :=
  let images_dir := path_join output_dir output_subdir in
  let labels_dir :=
    path_join output_dir (replace output_subdir "images" "labels") in
  [Makedirs images_dir; Makedirs labels_dir]
  ++ process_samples images_dir labels_dir 0 data_dicts.

Context (permutation : Z -> nat -> list nat).
Context (listdir : string -> list string).

(** [preprocess_train_val] in full: the partition of lines 80-98, then the
    directories, the two processed sets, the archive and its metadata
    record (lines 91-135). *)
Definition preprocess_train_val (data_dir labels_tr output_dir : string)
  : result (list action) :=
  bind (Preprocess.preprocess_train_val permutation listdir data_dir labels_tr)
    (fun parts =>
       Ok ([Makedirs (path_join output_dir "imagesTr");
            Makedirs (path_join output_dir "labelsTr");
            Makedirs (path_join output_dir "imagesTs");
            Makedirs (path_join output_dir "labelsTs")]
           ++ process_dataset (Preprocess.train_data_dicts parts)
                "imagesTr" output_dir
           ++ process_dataset (Preprocess.test_data_dicts parts)
                "imagesTs" output_dir
           ++ [Save (Train.valohai_outputs_path outputs_dir "*" "preprocessed"
                     +:+ ".zip")
                    (Archive output_dir);
               Save (Train.valohai_outputs_path outputs_dir "*"
                       "valohai.metadata.jsonl")
                    (Metadata [("preprocessed.zip",
                                ["dataset://task03_liver/version1"])])])).

(** How the script body ends when it does not complete. *)
Inductive failure : Type :=
| Exception (e : exn)
| FileNotFoundError (msg : string).

Inductive format : Type := Tar | Zip.

(** Lines 153-156: the format the archive is unpacked with, by its name. *)
Definition archive_format (dataset_archive : string) : option format :=
  if endswith dataset_archive ".tar" then Some Tar
  else if endswith dataset_archive ".zip" then Some Zip
  else None.

(** The script body, lines 140-175: what it has done to the working
    directory, and the failure it ends with, if any.  [archive_exists] is
    [os.path.exists(dataset_archive)]; [found fmt name] is what the recursive
    [glob] for [name] returns once the archive is unpacked as [fmt] into the
    temporary directory, which is new, hence empty when nothing is
    unpacked. *)
Definition main (archive_exists : bool) (dataset_archive : string)
    (found : format -> string -> list string) (cwd : string)
  : list action * option failure :=
  if negb archive_exists
  then ([], Some (Exception
                    (ValueError ("Dataset archive " +:+ dataset_archive
                                 +:+ " does not exist."))))
  else
    let glob_dir name :=
      match archive_format dataset_archive with
      | Some fmt => found fmt name
      | None => []
      end in
    match glob_dir "imagesTr", glob_dir "labelsTr" with
    | imagesTr_path :: _, labelsTr_path :: _ =>
        let output_dir := path_join cwd "processed_data" in
        match preprocess_train_val imagesTr_path labelsTr_path output_dir with
        | Ok actions => (Makedirs output_dir :: actions, None)
        | Raise e => ([Makedirs output_dir], Some (Exception e))
        end
    | _, _ =>
        ([], Some (FileNotFoundError
                     "imagesTr or labelsTr folder not found in extracted dataset."))
    end.
End Outputs.

End PreprocessRun.

(** * Properties *)

Example pred_name_case_01 :
  Inference.pred_name "/valohai/inputs/image/case_01.nii.gz"
  = "case_01_pred.nii.gz".
Proof. reflexivity. Qed.

Example pred_name_plain_nii :
  Inference.pred_name "volume-3.nii" = "volume-3_pred.nii.gz".
Proof. reflexivity. Qed.

Example pred_name_twice :
  Inference.pred_name "scan.nii.gz_backup.nii.gz"
  = "scan_pred.nii.gz_backup_pred.nii.gz".
Proof. reflexivity. Qed.

Example int_examples :
  Py.int " 16 " = Some 16%Z /\ Py.int "-3" = Some (-3)%Z
  /\ Py.int "1_000" = Some 1000%Z /\ Py.int "" = None
  /\ Py.int "1.5" = None /\ Py.int "3x" = None /\ Py.int "_1" = None.
Proof. repeat split; reflexivity. Qed.

Example split_examples :
  Py.split "," "16,32,,64" = ["16"; "32"; ""; "64"] /\ Py.split "," "" = [""].
Proof. split; reflexivity. Qed.

Example sorted_example :
  Py.sorted ["b.nii.gz"; "a.nii.gz"; "B.nii.gz"]
  = ["B.nii.gz"; "a.nii.gz"; "b.nii.gz"].
Proof. vm_compute. reflexivity. Qed.

(** ** Arithmetic of the cadence, order of scores, paths *)

Lemma validated_div (n : nat) :
  ((Z.of_nat n + 1) mod 5 = 0)%Z ->
  (S n / 5 = S (n / 5) /\ 5 * (n / 5) + 4 = n)%nat.
Proof.
  intros H.
  pose proof (Nat.div_mod_eq n 5). pose proof (Nat.mod_upper_bound n 5).
  pose proof (Nat.div_mod_eq (S n) 5).
  pose proof (Nat.mod_upper_bound (S n) 5).
  apply Z.mod_divide in H; [|lia]. destruct H as [c Hc].
  lia.
Qed.

Lemma unvalidated_div (n : nat) :
  ((Z.of_nat n + 1) mod 5 <> 0)%Z -> (S n / 5 = n / 5)%nat.
Proof.
  intros H.
  pose proof (Nat.div_mod_eq n 5). pose proof (Nat.mod_upper_bound n 5).
  pose proof (Nat.div_mod_eq (S n) 5).
  pose proof (Nat.mod_upper_bound (S n) 5).
  assert (Hn : (S n mod 5 <> 0)%nat).
  { intros Hz. apply H. apply Z.mod_divide; [lia|].
    exists (Z.of_nat (S n / 5)). lia. }
  lia.
Qed.

Lemma Qgtb_true (a b : Q) : Train.Qgtb a b = true <-> (b < a)%Q.
Proof.
  unfold Train.Qgtb. rewrite negb_true_iff, <- not_true_iff_false.
  rewrite Qle_bool_iff. split; [apply Qnot_le_lt|apply Qlt_not_le].
Qed.

Lemma Qgtb_false (a b : Q) : Train.Qgtb a b = false <-> (a <= b)%Q.
Proof.
  unfold Train.Qgtb. rewrite negb_false_iff. apply Qle_bool_iff.
Qed.

Lemma string_length_app (s1 s2 : string) :
  String.length (s1 +:+ s2) = (String.length s1 + String.length s2)%nat.
Proof. induction s1 as [|a s1 IH]; simpl; [done|]. by rewrite IH. Qed.

Lemma sidecar_path_ne (p : string) : p +:+ ".metadata.json" <> p.
Proof.
  intros H. apply (f_equal String.length) in H.
  rewrite string_length_app in H. cbn in H. lia.
Qed.

Lemma filter_training_events (evs : list Train.event) :
  Forall Run.training_event evs ->
  forall p : Train.event -> bool,
    (forall e, Run.training_event e -> p e = false) ->
    List.filter p evs = [].
Proof.
  intros Hall p Hp. induction Hall as [|e evs' He _ IH]; [done|].
  cbn. by rewrite (Hp e He).
Qed.

(** ** The training loop, one body at a time *)

Section TrainLoop.
Import Py Train Run.
Context `{F : Framework}.
Context (item : Loss -> Q) (outputs_dir : string).
Context (tl vl : nat -> list Batch).

Lemma emit_emit (st : state) evs1 evs2 :
  emit (emit st evs1) evs2 = emit st (evs1 ++ evs2).
Proof. destruct st; unfold emit; simpl. by rewrite app_assoc. Qed.

Lemma emit_nil (st : state) : emit st [] = st.
Proof. destruct st; unfold emit; simpl. by rewrite app_nil_r. Qed.

Lemma val_batch_eq epoch (st : state) buf b :
  training st = false ->
  val_batch outputs_dir epoch (st, buf) b
  = (emit st [Inference epoch false (grad_enabled st);
              Plot (valohai_outputs outputs_dir "my-output")],
     buf ++ scored_batch (model st) b).
Proof. intros Hmode. unfold val_batch, scored_batch. by rewrite Hmode. Qed.

(** The validation loop only feeds the metrics and logs. *)
Lemma val_batch_fold epoch (l : list Batch) :
  forall (st : state) buf,
    training st = false ->
    exists evs,
      fold_left (val_batch outputs_dir epoch) l (st, buf)
      = (emit st evs, buf ++ concat (scored_batch (model st) <$> l))
      /\ Forall (fun e => e = Inference epoch false (grad_enabled st)
                          \/ e = Plot (valohai_outputs outputs_dir
                                         "my-output"))
                evs
      /\ length (List.filter is_inference evs) = length l.
Proof.
  induction l as [|b l IH]; intros st buf Hmode.
  - exists []. split_and!; [|constructor|done].
    cbn. by rewrite emit_nil, app_nil_r.
  - cbn [fold_left]. rewrite val_batch_eq by done.
    edestruct IH as (evs & -> & Hall & Hlen); [by destruct st|].
    eexists. split_and!.
    + rewrite emit_emit. cbn. rewrite <- app_assoc. by destruct st.
    + constructor; [by left|]. constructor; [by right|]. by destruct st.
    + cbn. by rewrite Hlen.
Qed.

Lemma train_batch_eq epoch len (st : state) el step b :
  training st = true ->
  train_batch item epoch len (st, el, step) b
  = (emit (set_network st (step_net (model st, optimizer st) b).1
                          (step_net (model st, optimizer st) b).2)
          [OptimizerStep epoch (S step);
           PrintStep (S step) len
             (item (loss_function (forward true (model st) b) b))
             ((el + item (loss_function (forward true (model st) b) b))
              / inject_Z (Z.of_nat (S step)))%Q],
     (el + item (loss_function (forward true (model st) b) b))%Q,
     S step).
Proof.
  intros Hmode. unfold train_batch, step_net. rewrite Hmode. cbn [fst snd].
  by destruct (optimizer_step _ _ _).
Qed.

(** The batch loop moves the network by [step_net], counts the batches and
    touches nothing else but the log. *)
Lemma train_batch_fold epoch len (l : list Batch) :
  forall (st : state) el step,
    training st = true ->
    exists evs el',
      fold_left (train_batch item epoch len) l (st, el, step)
      = (emit (set_network st
                 (fold_left step_net l (model st, optimizer st)).1
                 (fold_left step_net l (model st, optimizer st)).2) evs,
         el', (step + length l)%nat)
      /\ Forall training_event evs
      /\ length (List.filter is_optimizer_step evs) = length l.
Proof.
  induction l as [|b l IH]; intros st el step Hmode.
  - exists [], el. split_and!; [|constructor|done].
    cbn. rewrite emit_nil, Nat.add_0_r. by destruct st.
  - cbn [fold_left]. rewrite train_batch_eq by done.
    edestruct IH as (evs & el' & -> & Hall & Hlen); [by destruct st|].
    exists
      (OptimizerStep epoch (S step)
       :: PrintStep (S step) len
            (item (loss_function (forward true (model st) b) b))
            ((el + item (loss_function (forward true (model st) b) b))
             / inject_Z (Z.of_nat (S step)))%Q
       :: evs), el'.
    split_and!.
    + cbn [length]. rewrite Nat.add_succ_r.
      destruct st; cbn. destruct (step_net _ b) as [m1 o1]; cbn.
      unfold emit, set_network; cbn. by rewrite <- app_assoc.
    + constructor; [done|]. constructor; [done|]. exact Hall.
    + cbn. by rewrite Hlen.
Qed.

Abbreviation model_pth :=
  (valohai_outputs_path outputs_dir "*" "model.pth").

(** A validation pass: the network and the optimizer are left alone, the
    Dice of the pass is recorded, and the best score, the best epoch and
    the snapshot change together, exactly when the new Dice is strictly
    greater than the best so far. *)
Lemma validation_spec (st : state) epoch :
  let d := dice_aggregate (scored vl (model st) epoch) in
  let st' := validation outputs_dir vl st epoch in
  model st' = model st /\ optimizer st' = optimizer st
  /\ grad_enabled st' = grad_enabled st /\ dirs st' = dirs st
  /\ epoch_loss_values st' = epoch_loss_values st
  /\ dice_values st' = dice_values st ++ [d]
  /\ (best_dice_score st', best_dice_epoch st', files st')
     = (if Qgtb d (best_dice_score st)
        then (d, (Z.of_nat epoch + 1)%Z,
              <[model_pth +:+ ".metadata.json" :=
                  Json [("valohai.alias", "latest-model")]]>
                (<[model_pth := Weights (model st)]> (files st)))
        else (best_dice_score st, best_dice_epoch st, files st))
  /\ exists evs,
       trace st'
       = trace st ++ evs ++
         [PrintVal (Z.of_nat epoch + 1) d
            (mean_iou_aggregate (scored vl (model st) epoch))
            (best_dice_score st') (best_dice_epoch st')]
       /\ Forall (fun e => e = Inference epoch false false
                           \/ e = Plot (valohai_outputs outputs_dir
                                         "my-output"))
                 evs
       /\ length (List.filter is_inference evs) = length (vl epoch).
Proof.
  intros d st'. subst d st'. unfold validation.
  destruct (val_batch_fold epoch (vl epoch)
              (set_mode (set_mode st false (grad_enabled st))
                 (training (set_mode st false (grad_enabled st))) false) [])
    as (evs & Heq & Hall & Hlen); [done|].
  rewrite Heq. unfold scored. destruct st; cbn in *.
  destruct (Qgtb _ _); cbn; split_and!; try done.
  all: exists evs; split_and!; try done; by rewrite <- app_assoc.
Qed.

(** The training half of an epoch, then the validation pass on every fifth
    epoch; an epoch without a batch ends in the division by zero of the mean
    loss. *)
Lemma train_epoch_spec (st : state) epoch :
  tl epoch <> [] ->
  exists stT evs,
    train_epoch item outputs_dir tl vl st epoch
    = Ok (if ((Z.of_nat epoch + 1) mod 5 =? 0)%Z
          then validation outputs_dir vl stT epoch else stT)
    /\ (model stT, optimizer stT)
       = epoch_net tl (model st, optimizer st) epoch
    /\ grad_enabled stT = grad_enabled st /\ dirs stT = dirs st
    /\ dice_values stT = dice_values st
    /\ best_dice_score stT = best_dice_score st
    /\ best_dice_epoch stT = best_dice_epoch st
    /\ files stT = files st
    /\ trace stT = trace st ++ evs
    /\ List.filter is_print_val evs = []
    /\ List.filter is_inference evs = [].
Proof.
  intros Hne. unfold train_epoch.
  destruct (train_batch_fold epoch (length (tl epoch)) (tl epoch)
              (set_mode st true (grad_enabled st)) 0%Q 0%nat)
    as (evs & el & Heq & Hall & Hlen); [done|].
  rewrite Heq. cbn [Nat.add].
  destruct (Nat.eqb_spec (length (tl epoch)) 0) as [Hz|_].
  { by destruct (tl epoch). }
  eexists _, (evs ++ [PrintEpoch (Z.of_nat epoch + 1)
                        (el / inject_Z (Z.of_nat (length (tl epoch))))%Q
                        (1 - el / inject_Z (Z.of_nat (length (tl epoch))))%Q]).
  split; [destruct (_ =? _)%Z; reflexivity|].
  pose proof (filter_training_events evs Hall) as Hf.
  unfold epoch_net. destruct st; cbn.
  split_and!; try done.
  - symmetry. apply surjective_pairing.
  - by rewrite <- app_assoc.
  - rewrite List.filter_app, Hf; [done|]. by intros [].
  - rewrite List.filter_app, Hf; [done|]. by intros [].
Qed.

Lemma train_epoch_empty (st : state) epoch :
  tl epoch = [] ->
  train_epoch item outputs_dir tl vl st epoch = Raise ZeroDivisionError.
Proof. intros Hnil. unfold train_epoch. by rewrite Hnil. Qed.

Lemma epochs_loop_app (st : state) l1 l2 :
  epochs_loop item outputs_dir tl vl st (l1 ++ l2)
  = bind (epochs_loop item outputs_dir tl vl st l1)
         (fun st' => epochs_loop item outputs_dir tl vl st' l2).
Proof.
  revert st. induction l1 as [|e l1 IH]; intros st; [done|].
  cbn. destruct (train_epoch _ _ _ _ _ _); cbn; auto.
Qed.

(** Saving over an earlier checkpoint, or over nothing, leaves exactly the
    new checkpoint. *)
Lemma save_over (fs : gmap string blob) (m : Model) :
  (fs = ∅ \/ exists m', fs = checkpoint_files outputs_dir m') ->
  <[model_pth +:+ ".metadata.json" := Json [("valohai.alias", "latest-model")]]>
    (<[model_pth := Weights m]> fs)
  = checkpoint_files outputs_dir m.
Proof.
  pose proof (sidecar_path_ne model_pth) as Hne.
  intros [->|[m' ->]]; unfold checkpoint_files.
  - by rewrite insert_empty.
  - rewrite (insert_insert_ne _ model_pth) by done.
    rewrite insert_insert_eq. f_equal.
    by rewrite insert_singleton_eq.
Qed.

Lemma net_after_S (m0 : Model) (lr : Q) (n : nat) :
  net_after tl m0 lr (S n) = epoch_net tl (net_after tl m0 lr n) n.
Proof. unfold net_after. by rewrite seq_S, fold_left_app. Qed.

Lemma run_inv_init (m0 : Model) (lr : Q) (ckpt_path : string) :
  run_inv tl vl outputs_dir m0 lr ckpt_path 0 (init m0 lr ckpt_path).
Proof.
  unfold run_inv, selected. cbn. split_and!; try done.
  left. split_and!; try done. intros j Hj. lia.
Qed.

(** One more epoch keeps the invariant. *)
Lemma run_inv_step (m0 : Model) (lr : Q) (ckpt_path : string) (n : nat)
    (st : state) :
  run_inv tl vl outputs_dir m0 lr ckpt_path n st ->
  tl n <> [] ->
  exists st',
    train_epoch item outputs_dir tl vl st n = Ok st'
    /\ run_inv tl vl outputs_dir m0 lr ckpt_path (S n) st'.
Proof.
  intros (Hnet & Hgrad & Hdirs & Hdice & Hsel & Hprints & Hinf) Hne.
  destruct (train_epoch_spec st n Hne)
    as (stT & evs & -> & HnetT & HgradT & HdirsT & HdiceT & HbestT & HepochT
        & HfilesT & HtraceT & HnoPrint & HnoInf).
  rewrite Hnet, <- net_after_S in HnetT.
  assert (HinfT : Forall (fun e => match e with
                                   | Inference _ training grad =>
                                       training = false /\ grad = false
                                   | _ => True
                                   end) (trace stT)).
  { rewrite HtraceT. apply Forall_app. split; [done|].
    clear -HnoInf. induction evs as [|e evs IH]; [done|].
    cbn in HnoInf. destruct e; cbn in HnoInf; try done;
      constructor; auto. }
  destruct (Z.eqb_spec ((Z.of_nat n + 1) mod 5) 0) as [Hval|Hval].
  - destruct (validated_div n Hval) as [Hq Hn].
    eexists. split; [reflexivity|].
    destruct (validation_spec stT n)
      as (Hm & Ho & Hg & Hd & _ & Hdv & Hb & vevs & Htr & Hvall & _).
    assert (Hscore : dice_aggregate (scored vl (model stT) n)
                     = pass_dice tl vl m0 lr (n / 5)).
    { unfold pass_dice, dice_at. rewrite Hn.
      by rewrite <- HnetT. }
    rewrite Hscore in Hdv, Hb, Htr.
    unfold run_inv. rewrite Hq. split_and!.
    + by rewrite Hm, Ho.
    + congruence.
    + congruence.
    + rewrite Hdv, HdiceT, Hdice, seq_S, fmap_app. done.
    + rewrite HbestT, HepochT, HfilesT in Hb.
      destruct (Train.Qgtb _ _) eqn:Hgt.
      * apply Qgtb_true in Hgt. injection Hb as Hb1 Hb2 Hb3.
        right. exists (n / 5)%nat. rewrite Hb1, Hb2, Hb3.
        assert (Hm' : model stT = (net_after tl m0 lr (5 * (n / 5 + 1))).1).
        { replace (5 * (n / 5 + 1))%nat with (S n) by lia.
          by rewrite <- HnetT. }
        rewrite <- Hm'.
        assert (Hold : forall j, (j < n / 5)%nat ->
                   (pass_dice tl vl m0 lr j < pass_dice tl vl m0 lr (n / 5))%Q).
        { intros j Hj.
          destruct Hsel
            as [(Hs & _ & _ & Hle)|(k & Hk & Hs & _ & _ & _ & Hle & _)];
            rewrite Hs in Hgt; (eapply Qle_lt_trans; [by apply Hle|done]). }
        split_and!; try done.
        -- lia.
        -- lia.
        -- apply save_over.
           destruct Hsel as [(_ & _ & Hf & _)|(k & _ & _ & _ & Hf & _)]; eauto.
        -- destruct Hsel as [(Hs & _)|(k & Hk & Hs & _ & _ & Hpos & _)];
             rewrite Hs in Hgt; [done|by eapply Qlt_trans].
        -- intros j Hj. destruct (decide (j = n / 5)%nat) as [->|Hjn].
           ++ apply Qle_refl.
           ++ apply Qlt_le_weak, Hold. lia.
      * apply Qgtb_false in Hgt. injection Hb as Hb1 Hb2 Hb3.
        unfold selected. rewrite Hb1, Hb2, Hb3.
        destruct Hsel as [(Hs & He & Hf & Hle)
                         |(k & Hk & Hs & He & Hf & Hpos & Hle & Hlt)].
        -- left. split_and!; try done. intros j Hj.
           destruct (decide (j = n / 5)%nat) as [->|Hjn].
           ++ by rewrite Hs in Hgt.
           ++ apply Hle. lia.
        -- right. exists k. split_and!; try done; [lia|].
           intros j Hj. destruct (decide (j = n / 5)%nat) as [->|Hjn].
           ++ by rewrite Hs in Hgt.
           ++ apply Hle. lia.
    + rewrite Htr, HtraceT, !List.filter_app, !length_app, HnoPrint.
      rewrite Hprints. cbn.
      assert (Hz : List.filter is_print_val vevs = []).
      { clear -Hvall. induction Hvall as [|e l [->| ->] _ IH]; done. }
      rewrite Hz. cbn. lia.
    + rewrite Htr. apply Forall_app. split; [done|].
      apply Forall_app. split; [|by repeat constructor].
      eapply Forall_impl; [exact Hvall|]. by intros e [->| ->].
  - eexists. split; [reflexivity|].
    unfold run_inv. rewrite (unvalidated_div n Hval).
    split_and!; try congruence.
    + destruct Hsel as [(Hs & He & Hf & Hle)
                       |(k & Hk & Hs & He & Hf & Hpos & Hle & Hlt)].
      * left. split_and!; congruence || done.
      * right. exists k. split_and!; congruence || done.
    + rewrite HtraceT, List.filter_app, length_app, HnoPrint, Hprints.
      cbn. lia.
Qed.

(** Every epoch count is reached, as long as each epoch has a batch. *)
Lemma run_inv_reach (m0 : Model) (lr : Q) (ckpt_path : string) (n : nat) :
  (forall e, (e < n)%nat -> tl e <> []) ->
  exists st,
    epochs_loop item outputs_dir tl vl (init m0 lr ckpt_path) (seq 0 n) = Ok st
    /\ run_inv tl vl outputs_dir m0 lr ckpt_path n st.
Proof.
  induction n as [|n IH]; intros Hne.
  - eexists. split; [reflexivity|]. apply run_inv_init.
  - destruct IH as (st & Hrun & Hinv); [intros e He; apply Hne; lia|].
    destruct (run_inv_step m0 lr ckpt_path n st Hinv) as (st' & Hstep & Hinv');
      [apply Hne; lia|].
    exists st'. split; [|done].
    rewrite seq_S, epochs_loop_app, Hrun. cbn. by rewrite Hstep.
Qed.
End TrainLoop.

(** ** Checkpoint selection *)

Section Selection.
Import Py Train Run.
Context `{F : Framework}.
Context (item : Loss -> Q) (outputs_dir : string).
Context (tl vl : nat -> list Batch).





End Selection.

(** ** Two runs side by side *)

Section Relational.
Import Py Train Run.
Context `{F : Framework}.
Context (item1 item2 : Loss -> Q) (outputs_dir : string).
Context (tl vl : nat -> list Batch).

Lemma sim_train_batch epoch len (st1 st2 : state) el1 el2 step b :
  sim st1 st2 ->
  sim (train_batch item1 epoch len (st1, el1, step) b).1.1
      (train_batch item2 epoch len (st2, el2, step) b).1.1
  /\ (train_batch item1 epoch len (st1, el1, step) b).2
     = (train_batch item2 epoch len (st2, el2, step) b).2.
Proof.
  destruct st1, st2. unfold sim. cbn.
  intros (-> & -> & -> & -> & -> & -> & -> & -> & Htr).
  unfold train_batch. cbn. destruct (optimizer_step _ _ _). cbn.
  split_and!; try done. rewrite !fmap_app. cbn. by rewrite Htr.
Qed.

Lemma sim_train_fold epoch len (l : list Batch) :
  forall (st1 st2 : state) el1 el2 step,
    sim st1 st2 ->
    sim (fold_left (train_batch item1 epoch len) l (st1, el1, step)).1.1
        (fold_left (train_batch item2 epoch len) l (st2, el2, step)).1.1
    /\ (fold_left (train_batch item1 epoch len) l (st1, el1, step)).2
       = (fold_left (train_batch item2 epoch len) l (st2, el2, step)).2.
Proof.
  induction l as [|b l IH]; intros st1 st2 el1 el2 step Hsim; [done|].
  cbn [fold_left].
  destruct (sim_train_batch epoch len st1 st2 el1 el2 step b Hsim) as [Hs He].
  destruct (train_batch item1 epoch len (st1, el1, step) b) as [[st1' el1'] s1].
  destruct (train_batch item2 epoch len (st2, el2, step) b) as [[st2' el2'] s2].
  cbn in Hs, He. subst s2. by apply IH.
Qed.

Lemma sim_val_fold epoch (l : list Batch) :
  forall (st1 st2 : state) buf,
    sim st1 st2 ->
    sim (fold_left (val_batch outputs_dir epoch) l (st1, buf)).1
        (fold_left (val_batch outputs_dir epoch) l (st2, buf)).1
    /\ (fold_left (val_batch outputs_dir epoch) l (st1, buf)).2
       = (fold_left (val_batch outputs_dir epoch) l (st2, buf)).2.
Proof.
  induction l as [|b l IH]; intros st1 st2 buf Hsim; [done|].
  cbn [fold_left].
  assert (Hstep : sim (val_batch outputs_dir epoch (st1, buf) b).1
                      (val_batch outputs_dir epoch (st2, buf) b).1
                  /\ (val_batch outputs_dir epoch (st1, buf) b).2
                     = (val_batch outputs_dir epoch (st2, buf) b).2).
  { destruct st1, st2. unfold sim in *. cbn in *.
    destruct Hsim as (-> & -> & -> & -> & -> & -> & -> & -> & Htr).
    split_and!; try done. rewrite !fmap_app. cbn. by rewrite Htr. }
  destruct Hstep as [Hs Hb].
  destruct (val_batch outputs_dir epoch (st1, buf) b) as [st1' b1].
  destruct (val_batch outputs_dir epoch (st2, buf) b) as [st2' b2].
  cbn in Hs, Hb. subst b2. by apply IH.
Qed.

Lemma sim_validation (st1 st2 : state) epoch :
  sim st1 st2 ->
  sim (validation outputs_dir vl st1 epoch)
      (validation outputs_dir vl st2 epoch).
Proof.
  intros Hsim. unfold validation.
  pose proof (sim_val_fold epoch (vl epoch)
    (set_mode (set_mode st1 false (grad_enabled st1))
              (training (set_mode st1 false (grad_enabled st1))) false)
    (set_mode (set_mode st2 false (grad_enabled st2))
              (training (set_mode st2 false (grad_enabled st2))) false) [])
    as Hfold.
  destruct Hfold as [Hs Hb].
  { destruct st1, st2. unfold sim in *. cbn in *.
    by destruct Hsim as (-> & -> & -> & -> & -> & -> & -> & -> & Htr). }
  destruct (fold_left _ _ (set_mode (set_mode st1 _ _) _ _, _)) as [st1' b1].
  destruct (fold_left _ _ (set_mode (set_mode st2 _ _) _ _, _)) as [st2' b2].
  cbn in Hs, Hb. subst b2.
  destruct st1, st2, st1', st2'. unfold sim in *. cbn in *.
  destruct Hsim as (-> & -> & -> & -> & -> & -> & -> & -> & Htr).
  destruct Hs as (-> & -> & -> & -> & -> & -> & -> & -> & Htr').
  destruct (Qgtb _ _); cbn; split_and!; try done.
  all: rewrite !fmap_app; cbn; by rewrite Htr'.
Qed.

Lemma sim_train_epoch (st1 st2 : state) epoch :
  sim st1 st2 ->
  rsim (train_epoch item1 outputs_dir tl vl st1 epoch)
       (train_epoch item2 outputs_dir tl vl st2 epoch).
Proof.
  intros Hsim. unfold train_epoch.
  destruct (sim_train_fold epoch (length (tl epoch)) (tl epoch)
              (set_mode st1 true (grad_enabled st1))
              (set_mode st2 true (grad_enabled st2)) 0%Q 0%Q 0%nat)
    as [Hs Hstep].
  { destruct st1, st2. unfold sim in *. cbn in *.
    by destruct Hsim as (-> & -> & -> & -> & -> & -> & -> & -> & Htr). }
  destruct (fold_left _ _ (set_mode st1 _ _, _, _)) as [[st1' el1] s1].
  destruct (fold_left _ _ (set_mode st2 _ _, _, _)) as [[st2' el2] s2].
  cbn in Hs, Hstep. subst s2.
  destruct (s1 =? 0)%nat; [done|].
  assert (Hs' : sim
    (emit (append_epoch_loss st1' (el1 / inject_Z (Z.of_nat s1))%Q)
       [PrintEpoch (Z.of_nat epoch + 1) (el1 / inject_Z (Z.of_nat s1))%Q
          (1 - el1 / inject_Z (Z.of_nat s1))%Q])
    (emit (append_epoch_loss st2' (el2 / inject_Z (Z.of_nat s1))%Q)
       [PrintEpoch (Z.of_nat epoch + 1) (el2 / inject_Z (Z.of_nat s1))%Q
          (1 - el2 / inject_Z (Z.of_nat s1))%Q])).
  { destruct st1', st2'. unfold sim in *. cbn in *.
    destruct Hs as (-> & -> & -> & -> & -> & -> & -> & -> & Htr).
    split_and!; try done. rewrite !fmap_app. cbn. by rewrite Htr. }
  destruct (_ =? _)%Z; cbn; [by apply sim_validation|done].
Qed.

Lemma sim_epochs_loop (l : list nat) :
  forall st1 st2 : state,
    sim st1 st2 ->
    rsim (epochs_loop item1 outputs_dir tl vl st1 l)
         (epochs_loop item2 outputs_dir tl vl st2 l).
Proof.
  induction l as [|e l IH]; intros st1 st2 Hsim; [done|].
  cbn. pose proof (sim_train_epoch st1 st2 e Hsim) as Hstep.
  destruct (train_epoch item1 _ _ _ st1 e), (train_epoch item2 _ _ _ st2 e);
    cbn in *; try done. by apply IH.
Qed.

Lemma sim_train_model (m : Model) (n : Z) (lr : Q) (ckpt1 ckpt2 : string) :
  rsim (train_model item1 outputs_dir tl vl m n lr ckpt1)
       (train_model item2 outputs_dir tl vl m n lr ckpt2).
Proof.
  unfold train_model.
  pose proof (sim_epochs_loop (seq 0 (Z.to_nat n))
                (init m lr ckpt1) (init m lr ckpt2)) as Hloop.
  destruct (epochs_loop item1 _ _ _ _ _) as [st1|e1],
           (epochs_loop item2 _ _ _ _ _) as [st2|e2]; cbn in *;
    try (by apply Hloop).
  destruct Hloop as (Hm & Ho & Ht & Hg & Hb & He & Hd & Hf & Htr); [done|].
  destruct st1, st2. unfold sim. cbn in *. subst.
  split_and!; try done. rewrite !fmap_app. cbn. by rewrite Htr.
Qed.

Lemma epochs_loop_ok (l : list nat) :
  forall st st' : state,
    epochs_loop item1 outputs_dir tl vl st l = Ok st' ->
    dirs st' = dirs st /\ forall e, e ∈ l -> tl e <> [].
Proof.
  induction l as [|e l IH]; intros st st' Hrun; cbn in Hrun.
  - injection Hrun as ->. split; [done|]. by intros e ?%elem_of_nil.
  - destruct (tl e) as [|b bs] eqn:Hbatches.
    { by rewrite (train_epoch_empty item1 outputs_dir tl vl st e Hbatches)
        in Hrun. }
    destruct (train_epoch_spec item1 outputs_dir tl vl st e)
      as (stT & evs & Hstep & _ & _ & Hdirs & _); [by rewrite Hbatches|].
    rewrite Hstep in Hrun. cbn in Hrun.
    apply IH in Hrun as [Hd Hne]. split.
    + rewrite Hd. destruct (_ =? _)%Z; [|done].
      destruct (validation_spec outputs_dir vl stT e) as (_ & _ & _ & -> & _).
      done.
    + intros e' [->|Hin]%elem_of_cons; [by rewrite Hbatches|by apply Hne].
Qed.

Lemma train_model_ok (m : Model) (n : Z) (lr : Q) (ckpt_path : string)
    (st : state) :
  train_model item1 outputs_dir tl vl m n lr ckpt_path = Ok st ->
  dirs st = {[ckpt_path]} /\ forall e, (e < Z.to_nat n)%nat -> tl e <> [].
Proof.
  unfold train_model. intros Hrun.
  destruct (epochs_loop _ _ _ _ _ _) as [st'|] eqn:Hloop; [|done].
  apply epochs_loop_ok in Hloop as [Hd Hne]. cbn in Hrun.
  injection Hrun as <-. split; [by destruct st'|].
  intros e He. apply Hne, elem_of_seq. lia.
Qed.
End Relational.

(** C9. The numbers read off the loss tensors reach the printed records and
    the list of epoch losses, and nothing else: whatever those numbers are,
    a run ends the same way, and when it returns, the parameters, the
    optimizer, the best score and epoch, the validation scores, the
    directories made, the files written and the sequence of optimizer steps,
    inferences and validation records are the same. *)
Theorem running_loss_is_observation_only
    `{F : Train.Framework} (item1 item2 : Train.Loss -> Q)
    (outputs_dir : string) (tl vl : nat -> list Train.Batch)
    (m : Train.Model) (n : Z) (lr : Q) (ckpt_path : string) :
  Run.result_map Run.dynamics_of
    (Train.train_model item1 outputs_dir tl vl m n lr ckpt_path)
  = Run.result_map Run.dynamics_of
      (Train.train_model item2 outputs_dir tl vl m n lr ckpt_path).
Proof.
  pose proof (sim_train_model item1 item2 outputs_dir tl vl m n lr
                ckpt_path ckpt_path) as Hsim.
  pose proof (train_model_ok item1 outputs_dir tl vl m n lr ckpt_path) as Hd1.
  pose proof (train_model_ok item2 outputs_dir tl vl m n lr ckpt_path) as Hd2.
  destruct (Train.train_model item1 _ _ _ _ _ _ _) as [st1|e1],
           (Train.train_model item2 _ _ _ _ _ _ _) as [st2|e2];
    cbn in *; try done; [|by subst].
  destruct (Hd1 st1 eq_refl) as [Hdirs1 _].
  destruct (Hd2 st2 eq_refl) as [Hdirs2 _].
  destruct Hsim as (Hm & Ho & _ & _ & Hb & He & Hdv & Hf & Htr).
  unfold Run.dynamics_of. f_equal. destruct st1, st2; cbn in *.
  clear Hd1 Hd2. subst. by rewrite Htr.
Qed.


(** ** Command-line parsing *)

Section Parsing.
Import Py Argparse.
Context (p : parser).

Lemma consume_cons (ns : namespace) (arg : string) (rest : list string) :
  consume p ns (arg :: rest)
  = if String.eqb arg "--" then exit_error else
    match parse_optional p arg with
    | Positional | Ambiguous | Unrecognized => exit_error
    | Optional a (Some explicit_arg) =>
        bind (store a explicit_arg ns) (fun ns' => consume p ns' rest)
    | Optional a None =>
        match rest with
        | [] => exit_error
        | raw :: rest' =>
            if String.eqb raw "--" then exit_error else
            match parse_optional p raw with
            | Positional =>
                bind (store a raw ns) (fun ns' => consume p ns' rest')
            | _ => exit_error
            end
        end
    end.
Proof. reflexivity. Qed.

Lemma store_cases (a : action) (raw : string) (ns : namespace) :
  (exists v, type a raw = Some v /\ store a raw ns = Ok (<[dest a := v]> ns))
  \/ (type a raw = None /\ store a raw ns = exit_error).
Proof. unfold store. destruct (type a raw); eauto. Qed.

Lemma bind_store_error (a : action) (raw : string) (ns : namespace)
    (rest : list string) :
  (forall ns', consume p ns' rest = exit_error) ->
  bind (store a raw ns) (fun ns' => consume p ns' rest) = exit_error.
Proof.
  intros Hrest.
  destruct (store_cases a raw ns) as [(v & _ & ->)|[_ ->]]; cbn; auto.
Qed.

Lemma consume_error_cons (arg : string) (rest : list string) :
  (forall ns, consume p ns rest = exit_error) ->
  (forall a ns, take_value p a ns rest = exit_error) ->
  forall ns, consume p ns (arg :: rest) = exit_error.
Proof.
  intros Hone Htwo ns. rewrite consume_cons.
  destruct (String.eqb arg "--"); [done|].
  destruct (parse_optional p arg) as [|a [explicit_arg|]| |]; try done.
  - by apply bind_store_error.
  - apply Htwo.
Qed.


End Parsing.


(** ** The split *)

Section SplitFacts.
Import Py Sklearn.
Context (permutation : Z -> nat -> list nat).
Context (Hperm : forall seed n, permutation seed n ≡ₚ seq 0 n).







End SplitFacts.

(** ** Sizes of the held-out part *)




(** ** Sorting makes the listing order immaterial *)





(** ** The two partitioners *)

Section Partitioners.
Import Py.
Context `{F : Train.Framework}.
Context (permutation : Z -> nat -> list nat).
Context (Hperm : forall seed n, permutation seed n ≡ₚ seq 0 n).
Context (listdir : string -> list string).







End Partitioners.





(** ** Output naming *)


Lemma prefix_app_l (p x y : string) :
  String.prefix p (x +:+ y) = true ->
  (String.length p <= String.length x)%nat ->
  String.prefix p x = true.
Proof.
  revert x. induction p as [|c p IH]; intros [|d x] Hp Hlen; simpl in *;
    try done; try lia.
  destruct (ascii_dec c d); [|done]. apply IH; [done|lia].
Qed.

Lemma string_app_assoc (s1 s2 s3 : string) :
  (s1 +:+ s2) +:+ s3 = s1 +:+ (s2 +:+ s3).
Proof.
  induction s1 as [|a s1 IH]; [done|].
  change (String a ((s1 +:+ s2) +:+ s3) = String a (s1 +:+ s2 +:+ s3)).
  by f_equal.
Qed.

Lemma rfind_from_app (c : ascii) (s1 s2 : string) (i : nat) (acc : option nat) :
  Py.rfind_from c (s1 +:+ s2) i acc
  = Py.rfind_from c s2 (i + String.length s1) (Py.rfind_from c s1 i acc).
Proof.
  revert i acc. induction s1 as [|a s1 IH]; intros i acc; simpl.
  - by rewrite Nat.add_0_r.
  - rewrite IH. f_equal. lia.
Qed.

Lemma substring_full (s : string) :
  String.substring 0 (String.length s) s = s.
Proof. induction s as [|b s IH]; simpl; [done|]. by rewrite IH. Qed.

Lemma substring_app_r (s1 s2 : string) :
  String.substring (String.length s1) (String.length s2) (s1 +:+ s2) = s2.
Proof.
  induction s1 as [|a s1 IH].
  - apply substring_full.
  - change (String a s1 +:+ s2) with (String a (s1 +:+ s2)). exact IH.
Qed.

Lemma endswith_app (s suffix : string) :
  Py.endswith (s +:+ suffix) suffix = true.
Proof.
  unfold Py.endswith. rewrite string_length_app.
  replace (String.length s + String.length suffix - String.length suffix)%nat
    with (String.length s) by lia.
  rewrite substring_app_r, String.eqb_refl, andb_true_r.
  apply Nat.leb_le. lia.
Qed.

(** Where [.nii.gz] occurs at the end of the name only, replacing it is
    stripping it. *)
Lemma replace_last_occurrence (stem : string) :
  Preprocess.contains ".nii.gz" (stem +:+ ".nii.g") = false ->
  Py.replace (stem +:+ ".nii.gz") ".nii.gz" "_pred.nii.gz"
  = stem +:+ "_pred.nii.gz".
Proof.
  unfold Py.replace. induction stem as [|a stem IH]; intros Hocc.
  - reflexivity.
  - cbn [Preprocess.contains] in Hocc.
    apply orb_false_iff in Hocc as [Hhere Hrest].
    change (String a stem +:+ ".nii.gz") with (String a (stem +:+ ".nii.gz")).
    cbn [Py.replace_go].
    assert (Hno : String.prefix ".nii.gz" (String a (stem +:+ ".nii.gz"))
                  = false).
    { apply not_true_iff_false. intros Hp. apply not_true_iff_false in Hhere.
      apply Hhere.
      apply (prefix_app_l _ (String a stem +:+ ".nii.g") "z").
      - by rewrite string_app_assoc.
      - rewrite string_length_app. cbn. lia. }
    rewrite Hno. change (String a stem +:+ "_pred.nii.gz")
      with (String a (stem +:+ "_pred.nii.gz")).
    f_equal. by apply IH.
Qed.

(** The naming the specification describes holds of every base name in which
    [.nii.gz] occurs once, at the end. *)
Lemma pred_name_single_occurrence (stem : string) :
  Py.rfind "/"%char stem = None ->
  Preprocess.contains ".nii.gz" (stem +:+ ".nii.g") = false ->
  Inference.pred_name (stem +:+ ".nii.gz") = stem +:+ "_pred.nii.gz".
Proof.
  intros Hslash Hocc. unfold Inference.pred_name, Py.basename, Py.rfind.
  rewrite rfind_from_app. fold (Py.rfind "/"%char stem). rewrite Hslash.
  cbn [Py.rfind_from]. cbn. rewrite endswith_app.
  by apply replace_last_occurrence.
Qed.

(** ** Concrete runs *)



Example best_of_five_passes :
  exists st,
    Toy.run [1 # 2; 7 # 10; 6 # 10; 9 # 10; 8 # 10] 25 "checkpoints" = Py.Ok st
    /\ Train.best_dice_score st = 9 # 10
    /\ Train.best_dice_epoch st = 20%Z
    /\ Train.files st !! "/valohai/outputs/model.pth"
       = Some (Toy.snapshot _ 20).
Proof. eexists. split; [vm_compute; reflexivity|]. by vm_compute. Qed.

Example tie_keeps_first_pass :
  exists st,
    Toy.run [7 # 10; 7 # 10] 10 "checkpoints" = Py.Ok st
    /\ Train.best_dice_score st = 7 # 10
    /\ Train.best_dice_epoch st = 5%Z
    /\ Train.files st !! "/valohai/outputs/model.pth"
       = Some (Toy.snapshot _ 5).
Proof. eexists. split; [vm_compute; reflexivity|]. by vm_compute. Qed.

Example five_epochs_one_pass :
  Run.passes (Toy.run [7 # 10] 5 "checkpoints") = 1%nat.
Proof. by vm_compute. Qed.

Example empty_loader_divides_by_zero :
  Train.train_model (F := Toy.framework []) Toy.item Toy.outputs_dir
    (fun _ => []) Toy.one_batch 0%nat 5 (1 # 10000) "checkpoints"
  = Py.Raise Py.ZeroDivisionError.
Proof. reflexivity. Qed.

(** ** The theorems at concrete inputs *)














(** * Further properties of the drivers *)

(** ** The command line, for any parser *)

Section ParsingMore.
Import Py Argparse.
Context (p : parser).

Lemma find_action_elem (s : string) (a : action) :
  find_action p s = Some a -> a ∈ p /\ option_string a = s.
Proof.
  unfold find_action. intros [Hin Heq]%List.find_some.
  split; [by apply list_elem_of_In|by apply String.eqb_eq].
Qed.

Lemma parse_optional_elem (arg : string) (a : action) (e : option string) :
  parse_optional p arg = Optional a e -> a ∈ p.
Proof.
  unfold parse_optional. destruct arg as [|c tail]; [done|].
  destruct (Ascii.ascii_dec c "-") as [->|Hc].
  2:{ destruct c as [[] [] [] [] [] [] [] []]; try done. }
  destruct (find_action p (String "-" tail)) as [a0|] eqn:Hfind.
  { intros [= <- <-]. by apply find_action_elem in Hfind as [? _]. }
  destruct (String.eqb tail ""); [done|].
  destruct (split_eq (String "-" tail)) as [[l r]|]; cbn [fst snd].
  - destruct (find_action p l) as [a1|] eqn:Hfind1.
    { intros [= <- <-]. by apply find_action_elem in Hfind1 as [? _]. }
    destruct (String.prefix "--" (String "-" tail)).
    + destruct (List.filter _ p) as [|a1 [|a2 l']] eqn:Hfilter; try done.
      * by repeat case_match.
      * intros [= <- <-]. apply list_elem_of_In.
        eapply (proj1 (List.filter_In _ _ _)). rewrite Hfilter. by left.
    + by repeat case_match.
  - destruct (String.prefix "--" (String "-" tail)).
    + destruct (List.filter _ p) as [|a1 [|a2 l']] eqn:Hfilter; try done.
      * by repeat case_match.
      * intros [= <- <-]. apply list_elem_of_In.
        eapply (proj1 (List.filter_In _ _ _)). rewrite Hfilter. by left.
    + by repeat case_match.
Qed.

(** Whatever every store keeps, a successful parse keeps. *)
Lemma consume_invariant (P : namespace -> Prop) :
  (forall a raw ns v,
      a ∈ p -> P ns -> type a raw = Some v -> P (<[dest a := v]> ns)) ->
  forall argv ns ns', P ns -> consume p ns argv = Ok ns' -> P ns'.
Proof.
  intros Hstore.
  assert (Hbind : forall a raw ns rest ns',
             a ∈ p ->
             (forall ns0, P ns0 -> consume p ns0 rest = Ok ns' -> P ns') ->
             P ns ->
             bind (store a raw ns) (fun ns0 => consume p ns0 rest) = Ok ns' ->
             P ns').
  { intros a raw ns rest ns' Hin Hrest HP. unfold store.
    destruct (type a raw) as [v|] eqn:Hty; [|done]. cbn.
    apply Hrest. by eapply Hstore. }
  assert (Hboth : forall argv,
             (forall ns ns', P ns -> consume p ns argv = Ok ns' -> P ns')
             /\ (forall arg ns ns',
                   P ns -> consume p ns (arg :: argv) = Ok ns' -> P ns')).
  { induction argv as [|b argv [IH1 IH2]].
    - split; [by intros ns ns' HP [= <-]|].
      intros arg ns ns' HP. rewrite consume_cons.
      destruct (String.eqb arg "--"); [done|].
      destruct (parse_optional p arg) as [|a [e|]| |] eqn:Hk; try done.
      apply Hbind; [by eapply parse_optional_elem|by intros ?? [= <-]|done].
    - split; [apply IH2|].
      intros arg ns ns' HP. rewrite consume_cons.
      destruct (String.eqb arg "--"); [done|].
      destruct (parse_optional p arg) as [|a [e|]| |] eqn:Hk; try done.
      + apply Hbind; [by eapply parse_optional_elem| |done].
        intros ns0. apply IH2.
      + destruct (String.eqb b "--"); [done|].
        destruct (parse_optional p b); try done.
        apply Hbind; [by eapply parse_optional_elem| |done].
        intros ns0. apply IH1. }
  intros argv. apply Hboth.
Qed.

Lemma bind_store_raise (a : action) (raw : string) (ns : namespace)
    (rest : list string) (e : exn) :
  (forall ns0, consume p ns0 rest = Raise e -> e = SystemExit 2) ->
  bind (store a raw ns) (fun ns0 => consume p ns0 rest) = Raise e ->
  e = SystemExit 2.
Proof.
  intros Hrest. unfold store. destruct (type a raw); cbn; [apply Hrest|].
  by intros [= <-].
Qed.

(** Every way a parse can fail is [parser.error]: exit status 2. *)
Lemma consume_raise (argv : list string) (ns : namespace) (e : exn) :
  consume p ns argv = Raise e -> e = SystemExit 2.
Proof.
  assert (Hboth : forall argv,
             (forall ns, consume p ns argv = Raise e -> e = SystemExit 2)
             /\ (forall arg ns,
                   consume p ns (arg :: argv) = Raise e -> e = SystemExit 2)).
  { clear argv ns. induction argv as [|b argv [IH1 IH2]].
    - split; [done|]. intros arg ns. rewrite consume_cons.
      destruct (String.eqb arg "--"); [by intros [= <-]|].
      destruct (parse_optional p arg) as [|a [x|]| |];
        try (by intros [= <-]).
      by apply bind_store_raise.
    - split; [apply IH2|]. intros arg ns. rewrite consume_cons.
      destruct (String.eqb arg "--"); [by intros [= <-]|].
      destruct (parse_optional p arg) as [|a [x|]| |];
        try (by intros [= <-]).
      + apply bind_store_raise. apply IH2.
      + destruct (String.eqb b "--"); [by intros [= <-]|].
        destruct (parse_optional p b); try (by intros [= <-]).
        apply bind_store_raise. apply IH1. }
  revert ns. apply Hboth.
Qed.

(** A command line that parses can be extended: what follows is parsed from
    the namespace reached. *)
Lemma consume_app (l1 l2 : list string) (ns ns' : namespace) :
  consume p ns l1 = Ok ns' ->
  consume p ns (l1 ++ l2) = consume p ns' l2.
Proof.
  assert (Hbind : forall a raw ns rest,
             (forall ns0, consume p ns0 rest = Ok ns' ->
                          consume p ns0 (rest ++ l2) = consume p ns' l2) ->
             bind (store a raw ns) (fun ns0 => consume p ns0 rest) = Ok ns' ->
             bind (store a raw ns) (fun ns0 => consume p ns0 (rest ++ l2))
             = consume p ns' l2).
  { intros a raw ns0 rest Hrest. unfold store.
    destruct (type a raw); cbn; [apply Hrest|done]. }
  assert (Hboth : forall l1,
             (forall ns, consume p ns l1 = Ok ns' ->
                         consume p ns (l1 ++ l2) = consume p ns' l2)
             /\ (forall arg ns,
                   consume p ns (arg :: l1) = Ok ns' ->
                   consume p ns ((arg :: l1) ++ l2) = consume p ns' l2)).
  { clear l1 ns. induction l1 as [|b l1 [IH1 IH2]].
    - split; [by intros ns [= <-]|]. intros arg ns.
      cbn [app]. rewrite !consume_cons.
      destruct (String.eqb arg "--"); [done|].
      destruct (parse_optional p arg) as [|a [x|]| |]; try done.
      apply (Hbind a x ns []). by intros ns0 [= <-].
    - split; [apply IH2|]. intros arg ns.
      cbn [app]. rewrite !consume_cons.
      destruct (String.eqb arg "--"); [done|].
      destruct (parse_optional p arg) as [|a [x|]| |]; try done.
      + apply (Hbind a x ns (b :: l1)). apply IH2.
      + destruct (String.eqb b "--"); [done|].
        destruct (parse_optional p b); try done.
        apply (Hbind a b ns l1). apply IH1. }
  revert ns. apply Hboth.
Qed.

(** An element that is neither a value nor a flag of the parser makes the
    parse fail wherever it stands. *)
Lemma consume_unrecognized (x : string) (post : list string) :
  (parse_optional p x = Unrecognized \/ parse_optional p x = Ambiguous) ->
  forall (pre : list string) (ns : namespace),
    consume p ns (pre ++ x :: post) = exit_error.
Proof.
  intros Hx.
  assert (Hnil : forall ns, consume p ns (x :: post) = exit_error).
  { intros ns. rewrite consume_cons.
    destruct (String.eqb x "--"); [done|]. by destruct Hx as [-> | ->]. }
  assert (Hval : forall a ns, take_value p a ns (x :: post) = exit_error).
  { intros a ns. unfold take_value.
    destruct (String.eqb x "--"); [done|]. by destruct Hx as [-> | ->]. }
  assert (Hboth : forall pre,
             (forall ns, consume p ns (pre ++ x :: post) = exit_error)
             /\ (forall arg ns,
                   consume p ns (arg :: pre ++ x :: post) = exit_error)).
  { induction pre as [|b pre [IH1 IH2]].
    - split; [exact Hnil|]. intros arg. by apply consume_error_cons.
    - split; [apply IH2|]. intros arg. apply consume_error_cons; [apply IH2|].
      intros a ns. cbn. destruct (String.eqb b "--"); [done|].
      destruct (parse_optional p b); try done.
      by apply bind_store_error. }
  intros pre. apply Hboth.
Qed.
End ParsingMore.

(** ** What a run reports and returns *)

Section Reporting.
Import Py Train Run Report.
Context `{F : Framework}.
Context (item : Loss -> Q) (outputs_dir : string).
Context (tl vl : nat -> list Batch).

Lemma batch_losses_length (l : list Batch) :
  forall mo, length (batch_losses item mo l) = length l.
Proof. induction l as [|b l IH]; intros mo; cbn; [done|]. by rewrite IH. Qed.

(** The batch loop, with the loss it accumulates and the steps it takes. *)
Lemma train_batch_fold_report epoch len (l : list Batch) :
  forall (st : state) el step,
    training st = true ->
    exists evs,
      fold_left (train_batch item epoch len) l (st, el, step)
      = (emit (set_network st
                 (fold_left step_net l (model st, optimizer st)).1
                 (fold_left step_net l (model st, optimizer st)).2) evs,
         fold_left Qplus (batch_losses item (model st, optimizer st) l) el,
         (step + length l)%nat)
      /\ Forall training_event evs
      /\ List.filter is_optimizer_step evs
         = OptimizerStep epoch <$> seq (S step) (length l).
Proof.
  induction l as [|b l IH]; intros st el step Hmode.
  - exists []. split_and!; [|constructor|done].
    cbn. rewrite emit_nil, Nat.add_0_r. by destruct st.
  - cbn [fold_left]. rewrite train_batch_eq by done.
    edestruct IH as (evs & -> & Hall & Hsteps); [by destruct st|].
    exists
      (OptimizerStep epoch (S step)
       :: PrintStep (S step) len
            (item (loss_function (forward true (model st) b) b))
            ((el + item (loss_function (forward true (model st) b) b))
             / inject_Z (Z.of_nat (S step)))%Q
       :: evs).
    split_and!.
    + cbn [length batch_losses fold_left fst]. rewrite Nat.add_succ_r.
      destruct st; cbn. destruct (step_net _ b) as [m1 o1]; cbn.
      unfold emit, set_network; cbn. by rewrite <- app_assoc.
    + constructor; [done|]. constructor; [done|]. exact Hall.
    + cbn. by rewrite Hsteps.
Qed.

(** A validation pass leaves the network in evaluation mode. *)
Lemma validation_mode (st : state) epoch :
  training (validation outputs_dir vl st epoch) = false.
Proof.
  unfold validation.
  destruct (val_batch_fold outputs_dir epoch (vl epoch)
              (set_mode (set_mode st false (grad_enabled st))
                 (training (set_mode st false (grad_enabled st))) false) [])
    as (evs & Heq & _); [done|].
  rewrite Heq. destruct st; cbn. by destruct (Qgtb _ _).
Qed.

(** What a validation pass adds to the log holds no optimizer step and no
    epoch record. *)
Lemma validation_log (st : state) epoch :
  exists evs,
    trace (validation outputs_dir vl st epoch) = trace st ++ evs
    /\ List.filter is_optimizer_step evs = []
    /\ List.filter is_print_epoch evs = [].
Proof.
  destruct (validation_spec outputs_dir vl st epoch)
    as (_ & _ & _ & _ & _ & _ & _ & evs & Htr & Hall & _).
  eexists. split; [exact Htr|].
  rewrite !List.filter_app. cbn.
  assert (Hz : List.filter is_optimizer_step evs = []
               /\ List.filter is_print_epoch evs = []).
  { clear -Hall. induction Hall as [|e l [->| ->] _ [IH1 IH2]]; done. }
  destruct Hz as [-> ->]. done.
Qed.

(** The training half of an epoch, with what it reports. *)
Lemma train_epoch_report (st : state) epoch :
  tl epoch <> [] ->
  let loss := mean_loss (batch_losses item (model st, optimizer st)
                           (tl epoch)) in
  exists stT evs,
    train_epoch item outputs_dir tl vl st epoch
    = Ok (if ((Z.of_nat epoch + 1) mod 5 =? 0)%Z
          then validation outputs_dir vl stT epoch else stT)
    /\ (model stT, optimizer stT)
       = epoch_net tl (model st, optimizer st) epoch
    /\ training stT = true
    /\ epoch_loss_values stT = epoch_loss_values st ++ [loss]
    /\ trace stT = trace st ++ evs
    /\ List.filter is_optimizer_step evs
       = OptimizerStep epoch <$> seq 1 (length (tl epoch))
    /\ List.filter is_print_epoch evs
       = [PrintEpoch (Z.of_nat epoch + 1) loss (1 - loss)%Q].
Proof.
  intros Hne loss. subst loss. unfold train_epoch, mean_loss.
  destruct (train_batch_fold_report epoch (length (tl epoch)) (tl epoch)
              (set_mode st true (grad_enabled st)) 0%Q 0%nat)
    as (evs & Heq & Hall & Hsteps); [done|].
  rewrite Heq. cbn [Nat.add].
  destruct (Nat.eqb_spec (length (tl epoch)) 0) as [Hz|_].
  { by destruct (tl epoch). }
  rewrite batch_losses_length.
  set (loss := (fold_left Qplus
                  (batch_losses item (model st, optimizer st) (tl epoch)) 0
                / inject_Z (Z.of_nat (length (tl epoch))))%Q).
  eexists _, (evs ++ [PrintEpoch (Z.of_nat epoch + 1) loss (1 - loss)%Q]).
  split; [destruct (_ =? _)%Z; reflexivity|].
  pose proof (filter_training_events evs Hall) as Hf.
  unfold epoch_net. destruct st; cbn.
  split_and!; try done.
  - symmetry. apply surjective_pairing.
  - by rewrite <- app_assoc.
  - rewrite List.filter_app, Hsteps. cbn. by rewrite app_nil_r.
  - rewrite List.filter_app, Hf; [done|]. by intros [].
Qed.

Lemma validated_nat (n : nat) :
  ((Z.of_nat n + 1) mod 5 =? 0)%Z = (S n mod 5 =? 0)%nat.
Proof.
  replace (Z.of_nat n + 1)%Z with (Z.of_nat (S n)) by lia.
  change 5%Z with (Z.of_nat 5). rewrite <- Nat2Z.inj_mod.
  destruct (Nat.eqb_spec (S n mod 5) 0) as [->|Hne]; [done|].
  apply Z.eqb_neq. lia.
Qed.

(** The state once [n] epochs are over, as far as reporting goes. *)
Lemma report_reach (m0 : Model) (lr : Q) (ckpt_path : string) (n : nat) :
  (forall e, (e < n)%nat -> tl e <> []) ->
  exists st,
    epochs_loop item outputs_dir tl vl (init m0 lr ckpt_path) (seq 0 n) = Ok st
    /\ (model st, optimizer st) = net_after tl m0 lr n
    /\ training st = negb ((0 <? n)%nat && (n mod 5 =? 0)%nat)
    /\ epoch_loss_values st = epoch_mean_loss item tl m0 lr <$> seq 0 n
    /\ List.filter is_optimizer_step (trace st) = optimizer_steps tl n
    /\ List.filter is_print_epoch (trace st) = epoch_records item tl m0 lr n.
Proof.
  induction n as [|n IH]; intros Hne.
  - eexists. split; [reflexivity|]. by split_and!.
  - destruct IH as (st & Hrun & Hnet & _ & Hloss & Hsteps & Hrec);
      [intros e He; apply Hne; lia|].
    destruct (train_epoch_report st n)
      as (stT & evs & Hstep & HnetT & HmodeT & HlossT & HtraceT & HstepsT
          & HrecT); [apply Hne; lia|].
    rewrite Hnet, <- net_after_S in HnetT.
    assert (HlossS : epoch_loss_values stT
                     = epoch_mean_loss item tl m0 lr <$> seq 0 (S n)).
    { rewrite HlossT, Hloss, seq_S, fmap_app. cbn.
      unfold epoch_mean_loss. by rewrite <- Hnet. }
    assert (HstepsS : List.filter is_optimizer_step (trace stT)
                      = optimizer_steps tl (S n)).
    { rewrite HtraceT, List.filter_app, Hsteps, HstepsT.
      unfold optimizer_steps. rewrite seq_S, flat_map_app. cbn.
      by rewrite app_nil_r. }
    assert (HrecS : List.filter is_print_epoch (trace stT)
                    = epoch_records item tl m0 lr (S n)).
    { rewrite HtraceT, List.filter_app, Hrec, HrecT.
      unfold epoch_records. rewrite seq_S, fmap_app. cbn.
      unfold epoch_mean_loss. by rewrite <- Hnet. }
    eexists. split.
    { rewrite seq_S, epochs_loop_app, Hrun. cbn. rewrite Hstep. reflexivity. }
    rewrite validated_nat. cbn [Nat.ltb Nat.leb andb].
    destruct (S n mod 5 =? 0)%nat; cbn [negb].
    + destruct (validation_spec outputs_dir vl stT n)
        as (Hm & Ho & _ & _ & Hl & _).
      destruct (validation_log stT n) as (vevs & Htr & Hv1 & Hv2).
      split_and!.
      * by rewrite Hm, Ho.
      * apply validation_mode.
      * by rewrite Hl.
      * by rewrite Htr, List.filter_app, Hv1, app_nil_r.
      * by rewrite Htr, List.filter_app, Hv2, app_nil_r.
    + by split_and!.
Qed.

(** The loop over the first [n] epochs either completes, every epoch having
    a batch, or stops with the division by zero of an epoch without one. *)
Lemma epochs_loop_cases (st0 : state) (n : nat) :
  (exists st, epochs_loop item outputs_dir tl vl st0 (seq 0 n) = Ok st
              /\ forall e, (e < n)%nat -> tl e <> [])
  \/ (epochs_loop item outputs_dir tl vl st0 (seq 0 n) = Raise ZeroDivisionError
      /\ exists k, (k < n)%nat /\ tl k = []).
Proof.
  induction n as [|n IH].
  - left. eexists. split; [reflexivity|]. intros e He. lia.
  - rewrite seq_S, epochs_loop_app.
    destruct IH as [(st & -> & Hne)|(-> & k & Hk & Hnil)].
    + cbn. destruct (tl n) as [|b bs] eqn:Hbatches.
      * right. rewrite (train_epoch_empty item outputs_dir tl vl st n Hbatches).
        split; [done|]. exists n. split; [lia|done].
      * destruct (train_epoch_spec item outputs_dir tl vl st n)
          as (stT & evs & -> & _); [by rewrite Hbatches|].
        left. eexists. split; [reflexivity|].
        intros e He. destruct (decide (e = n)) as [->|Hen].
        -- by rewrite Hbatches.
        -- apply Hne. lia.
    + right. split; [done|]. exists k. split; [lia|done].
Qed.
End Reporting.

Section Returned.
Import Py Train Run Report.
Context `{F : Framework}.
Context (item : Loss -> Q) (outputs_dir : string).
Context (tl vl : nat -> list Batch).

(** A run that returns is the loop over its epochs followed by the closing
    line; the state the loop ends in satisfies both invariants. *)
Lemma train_model_returns (m0 : Model) (n : Z) (lr : Q) (ckpt_path : string)
    (st : state) :
  train_model item outputs_dir tl vl m0 n lr ckpt_path = Ok st ->
  exists st',
    st = emit st' [PrintDone (best_dice_score st') (best_dice_epoch st')]
    /\ run_inv tl vl outputs_dir m0 lr ckpt_path (Z.to_nat n) st'
    /\ training st' = negb ((0 <? Z.to_nat n)%nat && (Z.to_nat n mod 5 =? 0)%nat)
    /\ epoch_loss_values st'
       = epoch_mean_loss item tl m0 lr <$> seq 0 (Z.to_nat n)
    /\ List.filter is_optimizer_step (trace st')
       = optimizer_steps tl (Z.to_nat n)
    /\ List.filter is_print_epoch (trace st')
       = epoch_records item tl m0 lr (Z.to_nat n).
Proof.
  intros Hrun.
  destruct (train_model_ok item outputs_dir tl vl m0 n lr ckpt_path st Hrun)
    as [_ Hne].
  destruct (report_reach item outputs_dir tl vl m0 lr ckpt_path (Z.to_nat n) Hne)
    as (st' & Hloop & _ & Hmode & Hloss & Hsteps & Hrec).
  destruct (run_inv_reach item outputs_dir tl vl m0 lr ckpt_path (Z.to_nat n)
              Hne) as (st'' & Hloop' & Hinv).
  assert (st'' = st') as -> by congruence.
  exists st'. split_and!; try done.
  unfold train_model in Hrun. rewrite Hloop in Hrun. cbn in Hrun. congruence.
Qed.

Lemma optimizer_steps_length (n : nat) :
  length (optimizer_steps tl n) = batches_run tl n.
Proof.
  unfold optimizer_steps, batches_run.
  induction n as [|n IH]; [done|].
  rewrite seq_S, flat_map_app, fmap_app, length_app, sum_list_with_app, IH. cbn.
  rewrite app_nil_r, length_fmap, length_seq. unfold id. lia.
Qed.
End Returned.

(** X1. [train_model] fails in one way only: it raises [ZeroDivisionError],
    and it does so exactly when iterating the training loader yields no
    batch in one of the epochs it is asked to run (the mean of the epoch's
    losses divides by the number of batches).  In particular a run of zero
    or a negative number of epochs never fails. *)
Theorem train_model_fails_on_empty_epoch_only
    `{F : Train.Framework} (item : Train.Loss -> Q) (outputs_dir : string)
    (tl vl : nat -> list Train.Batch) (m0 : Train.Model) (n : Z) (lr : Q)
    (ckpt_path : string) (e : Py.exn) :
  Train.train_model item outputs_dir tl vl m0 n lr ckpt_path = Py.Raise e
  <-> e = Py.ZeroDivisionError
      /\ exists k, (k < Z.to_nat n)%nat /\ tl k = [].
Proof.
  unfold Train.train_model.
  destruct (epochs_loop_cases item outputs_dir tl vl
              (Train.init m0 lr ckpt_path) (Z.to_nat n))
    as [(st & -> & Hne)|(-> & k & Hk & Hnil)]; cbn.
  - split; [done|]. intros (_ & k & Hk & Hnil). by destruct (Hne k Hk).
  - split.
    + intros [= <-]. split; [done|]. by exists k.
    + by intros [-> _].
Qed.

(** X2. The list of epoch losses a returning run has built holds one entry
    per epoch, in order: the sum of the numbers read off the loss tensors of
    the epoch's batches, accumulated from 0 in batch order, divided by the
    number of batches, the network moving from batch to batch.  The record
    printed at the end of each epoch carries the 1-indexed epoch, that mean
    and one minus it as [train_dice]. *)
Theorem epoch_losses_are_batch_means
    `{F : Train.Framework} (item : Train.Loss -> Q) (outputs_dir : string)
    (tl vl : nat -> list Train.Batch) (m0 : Train.Model) (n : Z) (lr : Q)
    (ckpt_path : string) (st : Train.state) :
  Train.train_model item outputs_dir tl vl m0 n lr ckpt_path = Py.Ok st ->
  Train.epoch_loss_values st
  = Report.epoch_mean_loss item tl m0 lr <$> seq 0 (Z.to_nat n)
  /\ List.filter Report.is_print_epoch (Train.trace st)
     = Report.epoch_records item tl m0 lr (Z.to_nat n).
Proof.
  intros Hrun.
  destruct (train_model_returns item outputs_dir tl vl m0 n lr ckpt_path st Hrun)
    as (st' & -> & _ & _ & Hloss & _ & Hrec).
  destruct st'; cbn in *. split; [done|].
  rewrite List.filter_app, Hrec. cbn. by rewrite app_nil_r.
Qed.

(** X3. A returning run takes exactly one optimizer step per training batch,
    in epoch order and, within an epoch, in batch order; validation takes
    none.  Their number is the number of batches the training loader has
    yielded over the epochs. *)
Theorem one_optimizer_step_per_training_batch
    `{F : Train.Framework} (item : Train.Loss -> Q) (outputs_dir : string)
    (tl vl : nat -> list Train.Batch) (m0 : Train.Model) (n : Z) (lr : Q)
    (ckpt_path : string) (st : Train.state) :
  Train.train_model item outputs_dir tl vl m0 n lr ckpt_path = Py.Ok st ->
  List.filter Run.is_optimizer_step (Train.trace st)
  = Report.optimizer_steps tl (Z.to_nat n)
  /\ length (List.filter Run.is_optimizer_step (Train.trace st))
     = Report.batches_run tl (Z.to_nat n).
Proof.
  intros Hrun.
  destruct (train_model_returns item outputs_dir tl vl m0 n lr ckpt_path st Hrun)
    as (st' & -> & _ & _ & _ & Hsteps & _).
  assert (Heq : List.filter Run.is_optimizer_step
                  (Train.trace
                     (Train.emit st'
                        [Train.PrintDone (Train.best_dice_score st')
                                         (Train.best_dice_epoch st')]))
                = Report.optimizer_steps tl (Z.to_nat n)).
  { destruct st'; cbn in *.
    rewrite List.filter_app, Hsteps. cbn. by rewrite app_nil_r. }
  split; [done|]. rewrite Heq. apply optimizer_steps_length.
Qed.

(** X4. What [train_model] returns is the network as the last epoch left it,
    with the optimizer steps of all epochs applied, whichever pass was the
    best one (the best parameters are in the checkpoint file only).  It
    comes back in evaluation mode exactly when the run had at least one
    epoch and their number is a multiple of five, because a validation pass
    switches to evaluation mode and only the start of the next epoch
    switches back; gradients are enabled again. *)
Theorem returned_model_is_the_last_one
    `{F : Train.Framework} (item : Train.Loss -> Q) (outputs_dir : string)
    (tl vl : nat -> list Train.Batch) (m0 : Train.Model) (n : Z) (lr : Q)
    (ckpt_path : string) (st : Train.state) :
  Train.train_model item outputs_dir tl vl m0 n lr ckpt_path = Py.Ok st ->
  (Train.model st, Train.optimizer st) = Run.net_after tl m0 lr (Z.to_nat n)
  /\ Train.training st = negb ((0 <? n)%Z && (n mod 5 =? 0)%Z)
  /\ Train.grad_enabled st = true.
Proof.
  intros Hrun.
  destruct (train_model_returns item outputs_dir tl vl m0 n lr ckpt_path st Hrun)
    as (st' & -> & (Hnet & Hgrad & _) & Hmode & _).
  assert (Hnat : ((0 <? Z.to_nat n)%nat && (Z.to_nat n mod 5 =? 0)%nat)
                 = ((0 <? n)%Z && (n mod 5 =? 0)%Z)).
  { destruct (Z.ltb_spec 0 n) as [Hpos|Hneg].
    - replace (0 <? Z.to_nat n)%nat with true
        by (symmetry; apply Nat.ltb_lt; lia).
      cbn [andb]. pose proof (Nat2Z.inj_mod (Z.to_nat n) 5) as Hmod.
      rewrite Z2Nat.id in Hmod by lia. change (Z.of_nat 5) with 5%Z in Hmod.
      generalize dependent (Z.to_nat n mod 5)%nat. intros r _ Hmod.
      generalize dependent (n mod 5)%Z. intros r' Hmod.
      destruct (Nat.eqb_spec r 0) as [Hz|Hne];
        destruct (Z.eqb_spec r' 0) as [Hz'|Hne']; try done; lia.
    - replace (Z.to_nat n) with 0%nat by lia. done. }
  rewrite Hnat in Hmode. by destruct st'.
Qed.

(** X5. A returning run has written a checkpoint exactly when some
    validation pass scored above the sentinel -1; the output directory is
    empty otherwise.  In particular a run of fewer than five epochs makes no
    validation pass and writes no model file at all. *)
Theorem checkpoint_written_iff_a_pass_beat_the_sentinel
    `{F : Train.Framework} (item : Train.Loss -> Q) (outputs_dir : string)
    (tl vl : nat -> list Train.Batch) (m0 : Train.Model) (n : Z) (lr : Q)
    (ckpt_path : string) (st : Train.state) :
  Train.train_model item outputs_dir tl vl m0 n lr ckpt_path = Py.Ok st ->
  (Train.files st = ∅
   <-> forall j, (j < Z.to_nat n / 5)%nat ->
                 (Run.pass_dice tl vl m0 lr j <= -1)%Q)
  /\ (is_Some (Train.files st
               !! Train.valohai_outputs_path outputs_dir "*" "model.pth")
      <-> exists j, (j < Z.to_nat n / 5)%nat
                    /\ (-1 < Run.pass_dice tl vl m0 lr j)%Q)
  /\ ((n < 5)%Z ->
      Train.files st = ∅ /\ Train.dice_values st = []
      /\ Train.best_dice_epoch st = (-1)%Z).
Proof.
  intros Hrun.
  destruct (train_model_returns item outputs_dir tl vl m0 n lr ckpt_path st Hrun)
    as (st' & -> & (_ & _ & _ & Hdice & Hsel & _) & _).
  assert (Hfiles : Train.files
                     (Train.emit st'
                        [Train.PrintDone (Train.best_dice_score st')
                                         (Train.best_dice_epoch st')])
                   = Train.files st') by by destruct st'.
  assert (Hdv : Train.dice_values
                  (Train.emit st'
                     [Train.PrintDone (Train.best_dice_score st')
                                      (Train.best_dice_epoch st')])
                = Train.dice_values st') by by destruct st'.
  assert (Hbe : Train.best_dice_epoch
                  (Train.emit st'
                     [Train.PrintDone (Train.best_dice_score st')
                                      (Train.best_dice_epoch st')])
                = Train.best_dice_epoch st') by by destruct st'.
  rewrite Hfiles, Hdv, Hbe.
  destruct Hsel as [(Hs & He & Hf & Hle)
                   |(k & Hk & Hs & He & Hf & Hpos & Hle & Hlt)].
  - split_and!.
    + by split.
    + rewrite Hf, lookup_empty. split; [by intros [? ?]|].
      intros (j & Hj & Hgt). apply Qlt_not_le in Hgt. destruct Hgt.
      by apply Hle.
    + intros Hn. split_and!; try done.
      rewrite Hdice. replace (Z.to_nat n / 5)%nat with 0%nat; [done|].
      symmetry. apply Nat.div_small. lia.
  - split_and!.
    + split.
      * intros Hempty. rewrite Hf in Hempty. unfold Run.checkpoint_files in Hempty.
        by apply insert_non_empty in Hempty.
      * intros Hall. apply Qlt_not_le in Hpos. destruct Hpos. by apply Hall.
    + split; [intros _; by exists k|]. intros _. rewrite Hf.
      unfold Run.checkpoint_files.
      rewrite lookup_insert_ne by apply sidecar_path_ne.
      rewrite lookup_singleton_eq. by eexists.
    + intros Hn. exfalso.
      assert (Z.to_nat n / 5 = 0)%nat by (apply Nat.div_small; lia). lia.
Qed.

(** ** The further properties at concrete inputs *)

Lemma epoch_losses_on_toy_run :
  exists st,
    Toy.run [7 # 10] 5 "checkpoints" = Py.Ok st
    /\ Train.epoch_loss_values st
       = Report.epoch_mean_loss (F := Toy.framework [7 # 10]) Toy.item
           Toy.one_batch 0%nat (1 # 10000) <$> seq 0 (Z.to_nat 5).
Proof.
  eexists. split; [vm_compute; reflexivity|].
  refine (proj1 (epoch_losses_are_batch_means (F := Toy.framework [7 # 10])
                   Toy.item Toy.outputs_dir Toy.one_batch Toy.one_batch
                   0%nat 5 (1 # 10000) "checkpoints" _ _)).
  vm_compute; reflexivity.
Defined.

Lemma optimizer_steps_on_toy_run :
  exists st,
    Toy.run [7 # 10] 6 "checkpoints" = Py.Ok st
    /\ List.filter Run.is_optimizer_step (Train.trace st)
       = (fun epoch => Train.OptimizerStep epoch 1) <$> seq 0 6.
Proof.
  eexists. split; [vm_compute; reflexivity|].
  refine (proj1 (one_optimizer_step_per_training_batch
                   (F := Toy.framework [7 # 10])
                   Toy.item Toy.outputs_dir Toy.one_batch Toy.one_batch
                   0%nat 6 (1 # 10000) "checkpoints" _ _)).
  vm_compute; reflexivity.
Defined.

Lemma returned_model_on_toy_runs :
  (exists st,
      Toy.run [7 # 10; 9 # 10] 10 "checkpoints" = Py.Ok st
      /\ Train.training st = negb ((0 <? 10)%Z && (10 mod 5 =? 0)%Z))
  /\ (exists st,
        Toy.run [7 # 10; 9 # 10] 11 "checkpoints" = Py.Ok st
        /\ Train.training st = negb ((0 <? 11)%Z && (11 mod 5 =? 0)%Z)).
Proof.
  split.
  - eexists. split; [vm_compute; reflexivity|].
    refine (proj1 (proj2 (returned_model_is_the_last_one
                     (F := Toy.framework [7 # 10; 9 # 10])
                     Toy.item Toy.outputs_dir Toy.one_batch Toy.one_batch
                     0%nat 10 (1 # 10000) "checkpoints" _ _))).
    vm_compute; reflexivity.
  - eexists. split; [vm_compute; reflexivity|].
    refine (proj1 (proj2 (returned_model_is_the_last_one
                     (F := Toy.framework [7 # 10; 9 # 10])
                     Toy.item Toy.outputs_dir Toy.one_batch Toy.one_batch
                     0%nat 11 (1 # 10000) "checkpoints" _ _))).
    vm_compute; reflexivity.
Defined.

Lemma no_checkpoint_on_short_toy_run :
  exists st,
    Toy.run [7 # 10] 4 "checkpoints" = Py.Ok st
    /\ (4 < 5)%Z
    /\ Train.files st = ∅.
Proof.
  eexists. split; [vm_compute; reflexivity|]. split; [lia|].
  refine (proj1 (proj2 (proj2 (checkpoint_written_iff_a_pass_beat_the_sentinel
                   (F := Toy.framework [7 # 10])
                   Toy.item Toy.outputs_dir Toy.one_batch Toy.one_batch
                   0%nat 4 (1 # 10000) "checkpoints" _ _)) _)); [|lia].
  vm_compute; reflexivity.
Defined.
